(** * Channel scope registry of Grafana Live

    A shallow embedding of
    [public/app/features/live/channel-config/scope.ts]: the four
    implementations of [GrafanaLiveScope] (core features, data sources,
    plugins, streams) and the properties of namespace resolution and
    namespace listing.

    Modelling conventions.
    - Objects have identity.  A [LiveChannelSupport] is a reference: either
      to an object built elsewhere and handed to this module, or to the n-th
      [LiveMeasurementsSupport] this module built with [new].  Arrays of
      [SelectableValue] live in a store and are named by their index in it.
    - An [async] method is a computation over the fields of [this] and the
      shared store that ends either resolved with a value or rejected with
      the thrown error.  Calls are run one after the other; interleaving of
      pending calls at [await] is not modelled.
    - The collaborators ([getDataSourceSrv().get], [loadPlugin]) and the
      [config] snapshot are read from an environment passed to each call.
      Every call to a collaborator is recorded in the store's effect log.
    - A collaborator may reject with any value.  The module is strict code:
      setting a property on a rejection that is not an ordinary object
      throws a [TypeError]. *)

From stdpp Require Import gmap strings list fin_maps.

(** ** Data model *)

(** A channel support object, by identity.  [LiveMeasurementsSupport n] is
    the object returned by the n-th evaluation of
    [new LiveMeasurementsSupport()] in this module; every other support
    object was created outside of it. *)
Inductive LiveChannelSupport : Type :=
  | ExternalSupport (id : nat)
  | LiveMeasurementsSupport (serial : nat).

#[global] Instance LiveChannelSupport_eq_dec : EqDecision LiveChannelSupport.
Proof. solve_decision. Defined.

(** [SelectableValue<string>]: the three properties the module writes, each
    of them optional in the TypeScript type. *)
Record SelectableValue : Type := mkSelectableValue {
  sv_value : option string;
  sv_label : option string;
  sv_description : option string;
}.

#[global] Instance SelectableValue_eq_dec : EqDecision SelectableValue.
Proof. solve_decision. Defined.

(** Modelled from the spec: [CoreGrafanaLiveFeature] is declared in
    [./types], which is not part of the sources at hand; a registration
    entry is a (name, description, support) triple. *)
Record CoreGrafanaLiveFeature : Type := mkFeature {
  feature_name : string;
  feature_support : LiveChannelSupport;
  feature_description : string;
}.

(** An error object: the [name] of its class and its [message]. *)
Record JsError : Type := mkJsError {
  err_name : string;
  err_message : string;
}.

#[global] Instance JsError_eq_dec : EqDecision JsError.
Proof. solve_decision. Defined.

(** [new Error(message)]: an instance of the built-in class. *)
Definition new_Error (message : string) : JsError :=
  {| err_name := "Error"; err_message := message |}.

(** A value that is thrown, or that a promise is rejected with: any value
    at all.  An ordinary error object takes a new property; [undefined],
    [null], a primitive (given by its description, as in ["string 'x'"]) and
    an object that is not extensible do not. *)
Inductive Thrown : Type :=
  | ThrownError (e : JsError)
  | ThrownUndefined
  | ThrownNull
  | ThrownPrimitive (description : string)
  | ThrownNonExtensible (e : JsError).

Coercion ThrownError : JsError >-> Thrown.

#[global] Instance Thrown_eq_dec : EqDecision Thrown.
Proof. solve_decision. Defined.

(** How a promise settles. *)
Inductive Outcome (A : Type) : Type :=
  | Resolved (a : A)
  | Rejected (e : Thrown).
Arguments Resolved {A} a.
Arguments Rejected {A} e.

Definition is_rejected {A} (o : Outcome A) : bool :=
  match o with Rejected _ => true | Resolved _ => false end.

(** Modelled from the spec: the data source instance returned by the data
    source resolver optionally exposes [channelSupport]. *)
Record DataSourceApi : Type := mkDataSourceApi {
  ds_channelSupport : option LiveChannelSupport;
}.

(** Modelled from the spec: a loaded plugin optionally exposes
    [channelSupport]. *)
Record GrafanaPlugin : Type := mkGrafanaPlugin {
  plugin_channelSupport : option LiveChannelSupport;
}.

(** Modelled from the spec: a configured data source definition has a
    [name], a [type] and the [meta.live] flag. *)
Record DataSourceInstanceSettings : Type := mkDataSourceSettings {
  dss_name : string;
  dss_type : string;
  dss_meta_live : bool;
}.

(** Modelled from the spec: the plugin [info] block carries a
    [description]. *)
Record PluginMetaInfo : Type := mkPluginMetaInfo {
  info_description : string;
}.

(** Modelled from the spec: a configured panel definition has a [name],
    an [info] block (read with [?.] by the code, hence optional) and the
    [live] flag. *)
Record PanelPluginMeta : Type := mkPanelPluginMeta {
  panel_name : string;
  panel_info : option PluginMetaInfo;
  panel_live : bool;
}.

(** The environment of a call: the [config] snapshot, each mapping given as
    the list [Object.entries] returns for it, and the two collaborators. *)
Record Env : Type := mkEnv {
  config_datasources : list (string * DataSourceInstanceSettings);
  config_panels : list (string * PanelPluginMeta);
  dataSourceSrv_get : string -> Outcome DataSourceApi;
  loadPlugin : string -> Outcome (option GrafanaPlugin);
}.

(** Effects visible outside the module. *)
Inductive Effect : Type :=
  | CallDataSourceGet (name : string)
  | CallLoadPlugin (pluginId : string)
  | SetIsHandled (err : JsError).

(** The shared store: the arrays allocated so far, the number of
    [LiveMeasurementsSupport] objects built so far, and the effect log
    (oldest first). *)
Record World : Type := mkWorld {
  arrays : list (list SelectableValue);
  measurements_built : nat;
  effects : list Effect;
}.

Definition empty_world : World :=
  {| arrays := []; measurements_built := 0; effects := [] |}.

(** ** Computations *)

Record State (F : Type) : Type := mkState {
  this : F;
  world : World;
}.
Arguments mkState {F} this world.
Arguments this {F} s.
Arguments world {F} s.

Definition M (F A : Type) : Type := State F -> Outcome A * State F.

Definition ret {F A} (a : A) : M F A := fun st => (Resolved a, st).

Definition bind {F A B} (m : M F A) (k : A -> M F B) : M F B :=
  fun st =>
    match m st with
    | (Resolved a, st') => k a st'
    | (Rejected e, st') => (Rejected e, st')
    end.

Definition throw {F A} (e : Thrown) : M F A := fun st => (Rejected e, st).

(** [try { body } catch (err) { handler }] *)
Definition try_catch {F A} (body : M F A) (handler : Thrown -> M F A) : M F A :=
  fun st =>
    match body st with
    | (Resolved a, st') => (Resolved a, st')
    | (Rejected e, st') => handler e st'
    end.

(** [await p] for a promise of a collaborator that has settled as [o]. *)
Definition await {F A} (o : Outcome A) : M F A := fun st => (o, st).

Definition get_this {F A} (field : F -> A) : M F A :=
  fun st => (Resolved (field (this st)), st).

Definition set_this {F} (update : F -> F) : M F unit :=
  fun st => (Resolved tt, {| this := update (this st); world := world st |}).

Definition modify_world {F} (update : World -> World) : M F unit :=
  fun st => (Resolved tt, {| this := this st; world := update (world st) |}).

#[global] Instance M_ret {F} : MRet (M F) := fun A a => ret a.
#[global] Instance M_bind {F} : MBind (M F) := fun A B k m => bind m k.

(** Record an effect in the log. *)
Definition emit {F} (ev : Effect) : M F unit :=
  modify_world (fun w =>
    {| arrays := arrays w;
       measurements_built := measurements_built w;
       effects := effects w ++ [ev] |}).

(** The error of [err.isHandled = true] in strict code on a value that
    takes no new property; the message is the engine's. *)
Definition TypeError_isHandled (err : Thrown) : JsError :=
  {| err_name := "TypeError";
     err_message :=
       match err with
       | ThrownUndefined => "Cannot set properties of undefined (setting 'isHandled')"
       | ThrownNull => "Cannot set properties of null (setting 'isHandled')"
       | ThrownPrimitive description =>
           "Cannot create property 'isHandled' on " +:+ description
       | ThrownNonExtensible _ | ThrownError _ =>
           "Cannot add property isHandled, object is not extensible"
       end |}.

(** [err.isHandled = true]: marks an ordinary error object, and throws on
    any other value. *)
Definition set_isHandled {F} (err : Thrown) : M F unit :=
  match err with
  | ThrownError e => emit (SetIsHandled e)
  | _ => throw (TypeError_isHandled err)
  end.

(** The array literal [[]]: a new, empty array. *)
Definition new_array {F} : M F nat :=
  fun st =>
    let w := world st in
    (Resolved (length (arrays w)),
     {| this := this st;
        world := {| arrays := arrays w ++ [[]];
                    measurements_built := measurements_built w;
                    effects := effects w |} |}).

(** [a.push(x)] *)
Definition array_push {F} (a : nat) (x : SelectableValue) : M F unit :=
  modify_world (fun w =>
    {| arrays := alter (fun items => items ++ [x]) a (arrays w);
       measurements_built := measurements_built w;
       effects := effects w |}).

(** Modelled from the spec: the class [LiveMeasurementsSupport] is imported
    from [../measurements/measurementsSupport], which is not part of the
    sources at hand; it is the default support factory.  The expression
    [new LiveMeasurementsSupport()] yields a new object on every
    evaluation. *)
Definition new_LiveMeasurementsSupport {F} : M F LiveChannelSupport :=
  fun st =>
    let w := world st in
    (Resolved (LiveMeasurementsSupport (measurements_built w)),
     {| this := this st;
        world := {| arrays := arrays w;
                    measurements_built := S (measurements_built w);
                    effects := effects w |} |}).

(** [for (const [key, x] of entries) { body }] *)
Fixpoint for_of {F K V} (entries : list (K * V)) (body : K -> V -> M F unit)
  : M F unit :=
  match entries with
  | [] => ret tt
  | (key, x) :: rest => body key x ;; for_of rest body
  end.

(** ** The core scope *)

Module GrafanaLiveCoreScope.

Record t : Type := mk {
  features : gmap string LiveChannelSupport;
  namespaces : nat;
}.

(** [new GrafanaLiveCoreScope()]: an empty map and a new empty array. *)
Definition new (w : World) : State t :=
  {| this := {| features := ∅; namespaces := length (arrays w) |};
     world := {| arrays := arrays w ++ [[]];
                 measurements_built := measurements_built w;
                 effects := effects w |} |}.

Definition register (feature : CoreGrafanaLiveFeature) : M t unit :=
  set_this (fun s =>
    {| features := <[feature_name feature := feature_support feature]> (features s);
       namespaces := namespaces s |}) ;;
  ns ← get_this namespaces;
  array_push ns
    {| sv_value := Some (feature_name feature);
       sv_label := Some (feature_name feature);
       sv_description := Some (feature_description feature) |}.

Definition getChannelSupport (namespace : string) : M t LiveChannelSupport :=
  v ← get_this (fun s => features s !! namespace);
  match v with
  | Some v => ret v
  | None => throw (new_Error ("unknown feature: " +:+ namespace))
  end.

Definition listNamespaces : M t nat :=
  get_this namespaces.

End GrafanaLiveCoreScope.

(** A channel support is an object, and an object is truthy: the test
    [if (s)] on a support always succeeds.  Where the tested value may be
    [undefined] (the result of [Map.get], an optional [channelSupport]) it
    is an [option], and the test is the match on it. *)
Definition truthy (s : LiveChannelSupport) : bool := true.

(** ** The data source scope *)

Module GrafanaLiveDataSourceScope.

Record t : Type := mk {
  names : option nat;
}.

Definition new : t := {| names := None |}.

Definition getChannelSupport (env : Env) (namespace : string)
  : M t LiveChannelSupport :=
  emit (CallDataSourceGet namespace) ;;
  ds ← await (dataSourceSrv_get env namespace);
  match ds_channelSupport ds with
  | Some s => ret s
  | None => new_LiveMeasurementsSupport
  end.

Definition entry (ds : DataSourceInstanceSettings) : SelectableValue :=
  {| sv_label := Some (dss_name ds);
     sv_value := Some (dss_type ds);
     sv_description := Some (dss_type ds) |}.

(** The body of the loop of [listNamespaces], filling the array [a]. *)
Definition visit (env : Env) (a : nat)
    (key : string) (ds : DataSourceInstanceSettings) : M t unit :=
  if dss_meta_live ds then
    try_catch
      (s ← getChannelSupport env key;
       if truthy s then array_push a (entry ds) else ret tt)
      (fun err => set_isHandled err)
  else ret tt.

Definition listNamespaces (env : Env) : M t nat :=
  cached ← get_this names;
  match cached with
  | Some a => ret a
  | None =>
      a ← new_array;
      for_of (config_datasources env) (visit env a) ;;
      set_this (fun _ => {| names := Some a |}) ;;
      ret a
  end.

End GrafanaLiveDataSourceScope.

(** ** The plugin scope *)

Module GrafanaLivePluginScope.

Record t : Type := mk {
  names : option nat;
}.

Definition new : t := {| names := None |}.

Definition getChannelSupport (env : Env) (namespace : string)
  : M t LiveChannelSupport :=
  emit (CallLoadPlugin namespace) ;;
  plugin ← await (loadPlugin env namespace);
  match plugin with
  | None => throw (new_Error ("Unknown streaming plugin: " +:+ namespace))
  | Some plugin =>
      match plugin_channelSupport plugin with
      | Some s => ret s
      | None =>
          throw (new_Error ("Plugin does not support streaming: " +:+ namespace))
      end
  end.

(** [panel.info?.description] *)
Definition info_description_of (panel : PanelPluginMeta) : option string :=
  match panel_info panel with
  | Some info => Some (info_description info)
  | None => None
  end.

Definition entry (key : string) (panel : PanelPluginMeta) : SelectableValue :=
  {| sv_label := Some (panel_name panel);
     sv_value := Some key;
     sv_description := info_description_of panel |}.

(** The body of the loop of [listNamespaces], filling the array [a]. *)
Definition visit (env : Env) (a : nat)
    (key : string) (panel : PanelPluginMeta) : M t unit :=
  if panel_live panel then
    try_catch
      (s ← getChannelSupport env key;
       if truthy s then array_push a (entry key panel) else ret tt)
      (fun err => set_isHandled err)
  else ret tt.

Definition listNamespaces (env : Env) : M t nat :=
  cached ← get_this names;
  match cached with
  | Some a => ret a
  | None =>
      a ← new_array;
      for_of (config_panels env) (visit env a) ;;
      set_this (fun _ => {| names := Some a |}) ;;
      ret a
  end.

End GrafanaLivePluginScope.

(** ** The stream scope *)

Module GrafanaLiveStreamScope.

Record t : Type := mk {
  names : option nat;
}.

Definition new : t := {| names := None |}.

Definition getChannelSupport (namespace : string) : M t LiveChannelSupport :=
  new_LiveMeasurementsSupport.

Definition listNamespaces : M t nat :=
  cached ← get_this names;
  match cached with
  | Some a => ret a
  | None =>
      a ← new_array;
      set_this (fun _ => {| names := Some a |}) ;;
      ret a
  end.

End GrafanaLiveStreamScope.

(** ** The abstract class and its four implementations *)

(** The enumerant each implementation passes to the constructor of the
    abstract class. *)
Module LiveChannelScope.
Inductive t : Type := Grafana | DataSource | Plugin | Stream.
End LiveChannelScope.

Class GrafanaLiveScope (F : Type) : Type := {
  scope : LiveChannelScope.t;
  getChannelSupport : Env -> string -> M F LiveChannelSupport;
  listNamespaces : Env -> M F nat;
}.

#[global] Instance core_scope : GrafanaLiveScope GrafanaLiveCoreScope.t := {|
  scope := LiveChannelScope.Grafana;
  getChannelSupport := fun _ => GrafanaLiveCoreScope.getChannelSupport;
  listNamespaces := fun _ => GrafanaLiveCoreScope.listNamespaces;
|}.

#[global] Instance datasource_scope
  : GrafanaLiveScope GrafanaLiveDataSourceScope.t := {|
  scope := LiveChannelScope.DataSource;
  getChannelSupport := GrafanaLiveDataSourceScope.getChannelSupport;
  listNamespaces := GrafanaLiveDataSourceScope.listNamespaces;
|}.

#[global] Instance plugin_scope : GrafanaLiveScope GrafanaLivePluginScope.t := {|
  scope := LiveChannelScope.Plugin;
  getChannelSupport := GrafanaLivePluginScope.getChannelSupport;
  listNamespaces := GrafanaLivePluginScope.listNamespaces;
|}.

#[global] Instance stream_scope : GrafanaLiveScope GrafanaLiveStreamScope.t := {|
  scope := LiveChannelScope.Stream;
  getChannelSupport := fun _ => GrafanaLiveStreamScope.getChannelSupport;
  listNamespaces := fun _ => GrafanaLiveStreamScope.listNamespaces;
|}.

(** A scope object of any of the four classes. *)
Inductive AnyScope : Type :=
  | Core (s : GrafanaLiveCoreScope.t)
  | DataSource (s : GrafanaLiveDataSourceScope.t)
  | Plugin (s : GrafanaLivePluginScope.t)
  | Stream (s : GrafanaLiveStreamScope.t).

(** Run a method of one class on an object of that class, seen as a scope
    object of any class. *)
Definition on {F A} (inj : F -> AnyScope) (s : F) (m : M F A) (w : World)
  : Outcome A * State AnyScope :=
  let (o, st) := m {| this := s; world := w |} in
  (o, {| this := inj (this st); world := world st |}).

(** Dynamic dispatch of [scope.getChannelSupport(namespace)]. *)
Definition scope_getChannelSupport (env : Env) (namespace : string)
  : M AnyScope LiveChannelSupport :=
  fun st =>
    match this st with
    | Core s => on Core s (getChannelSupport env namespace) (world st)
    | DataSource s => on DataSource s (getChannelSupport env namespace) (world st)
    | Plugin s => on Plugin s (getChannelSupport env namespace) (world st)
    | Stream s => on Stream s (getChannelSupport env namespace) (world st)
    end.

(** Dynamic dispatch of [scope.listNamespaces()]. *)
Definition scope_listNamespaces (env : Env) : M AnyScope nat :=
  fun st =>
    match this st with
    | Core s => on Core s (listNamespaces env) (world st)
    | DataSource s => on DataSource s (listNamespaces env) (world st)
    | Plugin s => on Plugin s (listNamespaces env) (world st)
    | Stream s => on Stream s (listNamespaces env) (world st)
    end.

(** Register a list of features, in order. *)
Fixpoint register_all (fs : list CoreGrafanaLiveFeature)
  : M GrafanaLiveCoreScope.t unit :=
  match fs with
  | [] => ret tt
  | f :: rest => GrafanaLiveCoreScope.register f ;; register_all rest
  end.

(** The entry [register] pushes for a feature. *)
Definition feature_entry (f : CoreGrafanaLiveFeature) : SelectableValue :=
  {| sv_value := Some (feature_name f);
     sv_label := Some (feature_name f);
     sv_description := Some (feature_description f) |}.

(** The content of the array a resolved [listNamespaces] returned. *)
Definition listed {F} (r : Outcome nat * State F) : option (list SelectableValue) :=
  match fst r with
  | Resolved a => arrays (world (snd r)) !! a
  | Rejected _ => None
  end.

(** ** Reference functions used in the statements *)

(** What [register] does to the [features] map. *)
Definition insert_feature (m : gmap string LiveChannelSupport)
    (f : CoreGrafanaLiveFeature) : gmap string LiveChannelSupport :=
  <[feature_name f := feature_support f]> m.

Definition resolves {A} (o : Outcome A) : bool :=
  match o with Resolved _ => true | Rejected _ => false end.

(** The data source resolver settles with an instance for [key]. *)
Definition datasource_resolves (env : Env) (key : string) : bool :=
  resolves (dataSourceSrv_get env key).

(** The plugin loader yields a plugin for [key] and that plugin declares a
    channel support. *)
Definition plugin_streams (env : Env) (key : string) : bool :=
  match loadPlugin env key with
  | Resolved (Some plugin) => bool_decide (is_Some (plugin_channelSupport plugin))
  | _ => false
  end.

(** The data source scope builds a default support for [namespace]: the
    instance resolves and exposes no [channelSupport]. *)
Definition datasource_defaults (env : Env) (namespace : string) : bool :=
  match dataSourceSrv_get env namespace with
  | Resolved ds => bool_decide (ds_channelSupport ds = None)
  | Rejected _ => false
  end.

(** The scopes whose [getChannelSupport] answers [namespace] with
    [new LiveMeasurementsSupport()]. *)
Definition builds_default (env : Env) (namespace : string) (s : AnyScope) : bool :=
  match s with
  | Stream _ => true
  | DataSource _ => datasource_defaults env namespace
  | Core _ | Plugin _ => false
  end.

(** The entry [listNamespaces] of the data source scope produces for a
    configured data source, if any: the definition is flagged live and its
    resolution succeeds. *)
Definition datasource_listing (env : Env)
    (kd : string * DataSourceInstanceSettings) : option SelectableValue :=
  if dss_meta_live kd.2 && datasource_resolves env kd.1
  then Some {| sv_value := Some (dss_type kd.2);
               sv_label := Some (dss_name kd.2);
               sv_description := Some (dss_type kd.2) |}
  else None.

(** The entry [listNamespaces] of the plugin scope produces for a configured
    panel, if any: the panel is flagged live and its plugin loads with a
    channel support. *)
Definition plugin_listing (env : Env)
    (kp : string * PanelPluginMeta) : option SelectableValue :=
  if panel_live kp.2 && plugin_streams env kp.1
  then Some {| sv_value := Some kp.1;
               sv_label := Some (panel_name kp.2);
               sv_description := info_description <$> panel_info kp.2 |}
  else None.

(** The state [st] after [xs] was pushed onto the array [a], [n] default
    supports were built and the effects [ev] were logged. *)
Definition advanced {F} (a : nat) (xs : list SelectableValue) (n : nat)
    (ev : list Effect) (st : State F) : State F :=
  {| this := this st;
     world := {| arrays := alter (fun items => items ++ xs) a (arrays (world st));
                 measurements_built := measurements_built (world st) + n;
                 effects := effects (world st) ++ ev |} |}.

(** Inputs of the examples. *)
Module Examples.

Definition alpha := mkFeature "alpha" (ExternalSupport 1) "desc-A".
Definition alpha' := mkFeature "alpha" (ExternalSupport 2) "desc-A2".
Definition beta := mkFeature "beta" (ExternalSupport 3) "desc-B".

Definition fresh_core : State GrafanaLiveCoreScope.t :=
  GrafanaLiveCoreScope.new empty_world.

Definition prometheus := mkDataSourceSettings "Prometheus" "prometheus" true.
Definition loki := mkDataSourceSettings "Loki" "loki" true.
Definition csv := mkDataSourceSettings "CSV" "csv" false.

Definition graph :=
  mkPanelPluginMeta "Graph" (Some (mkPluginMetaInfo "Time series")) true.
Definition table := mkPanelPluginMeta "Table" None true.
Definition text := mkPanelPluginMeta "Text" None true.
Definition gauge := mkPanelPluginMeta "Gauge" None false.

(** Prometheus resolves without a channel support, every other data
    source is unknown; the graph plugin streams, the table plugin loads
    without a channel support, no other plugin loads. *)
Definition env : Env :=
  {| config_datasources := [("Prometheus", prometheus); ("CSV", csv); ("Loki", loki)];
     config_panels := [("graph", graph); ("table", table); ("text", text); ("gauge", gauge)];
     dataSourceSrv_get := fun name =>
       if decide (name = "Prometheus") then Resolved (mkDataSourceApi None)
       else Rejected (mkJsError "Error" "Datasource was not found");
     loadPlugin := fun id =>
       if decide (id = "graph")
       then Resolved (Some (mkGrafanaPlugin (Some (ExternalSupport 7))))
       else if decide (id = "table") then Resolved (Some (mkGrafanaPlugin None))
       else Resolved None |}.

Definition empty_env : Env :=
  {| config_datasources := [];
     config_panels := [];
     dataSourceSrv_get := fun _ => Rejected (mkJsError "Error" "none");
     loadPlugin := fun _ => Resolved None |}.

End Examples.

(** ** Reference functions for the traces of the scans *)

(** The names the data source resolver was asked for, oldest first. *)
Definition datasource_calls (ev : list Effect) : list string :=
  omap (fun e => match e with CallDataSourceGet n => Some n | _ => None end) ev.

(** The plugin ids the plugin loader was asked for, oldest first. *)
Definition plugin_calls (ev : list Effect) : list string :=
  omap (fun e => match e with CallLoadPlugin n => Some n | _ => None end) ev.

(** The errors that were marked handled, oldest first. *)
Definition handled (ev : list Effect) : list JsError :=
  omap (fun e => match e with SetIsHandled err => Some err | _ => None end) ev.

(** How [getChannelSupport] of the plugin scope settles for [namespace]. *)
Definition plugin_answer (env : Env) (namespace : string)
  : Outcome LiveChannelSupport :=
  match loadPlugin env namespace with
  | Resolved None =>
      Rejected (new_Error ("Unknown streaming plugin: " +:+ namespace))
  | Resolved (Some plugin) =>
      match plugin_channelSupport plugin with
      | Some s => Resolved s
      | None =>
          Rejected (new_Error ("Plugin does not support streaming: " +:+ namespace))
      end
  | Rejected e => Rejected e
  end.

(** The value an outcome is rejected with, if any. *)
Definition rejection {A} (o : Outcome A) : option Thrown :=
  match o with Rejected e => Some e | Resolved _ => None end.

(** The error object that [err.isHandled = true] marks, if [err] is one. *)
Definition markable (err : Thrown) : option JsError :=
  match err with ThrownError e => Some e | _ => None end.

(** The error one turn of a scan throws out of its [catch] block, when the
    lookup of the turn is rejected with a value that cannot be marked. *)
Definition catch_fails {A} (o : Outcome A) : option JsError :=
  match o with
  | Rejected (ThrownError _) | Resolved _ => None
  | Rejected err => Some (TypeError_isHandled err)
  end.

(** The entries a scan reaches: all of them up to and including the first
    one at which the loop body throws. *)
Fixpoint scanned {X} (abort : X -> option JsError) (entries : list X) : list X :=
  match entries with
  | [] => []
  | x :: rest =>
      x :: match abort x with
           | Some _ => []
           | None => scanned abort rest
           end
  end.

(** The error that ends a scan, if the loop body throws at some entry. *)
Fixpoint scan_error {X} (abort : X -> option JsError) (entries : list X)
  : option JsError :=
  match entries with
  | [] => None
  | x :: rest =>
      match abort x with
      | Some e => Some e
      | None => scan_error abort rest
      end
  end.

(** The error with which one turn of the loop of the data source scope
    ends, if it throws. *)
Definition datasource_abort (env : Env)
    (kd : string * DataSourceInstanceSettings) : option JsError :=
  if dss_meta_live kd.2 then catch_fails (dataSourceSrv_get env kd.1) else None.

(** The effects of one turn of the loop of the data source scope. *)
Definition datasource_visit_effects (env : Env)
    (kd : string * DataSourceInstanceSettings) : list Effect :=
  if dss_meta_live kd.2
  then CallDataSourceGet kd.1
         :: option_list (SetIsHandled
                           <$> (rejection (dataSourceSrv_get env kd.1) ≫= markable))
  else [].

(** The number of default supports one turn of that loop builds. *)
Definition datasource_visit_built (env : Env)
    (kd : string * DataSourceInstanceSettings) : nat :=
  if dss_meta_live kd.2 && datasource_defaults env kd.1 then 1 else 0.

(** The error with which one turn of the loop of the plugin scope ends,
    if it throws. *)
Definition plugin_abort (env : Env) (kp : string * PanelPluginMeta)
  : option JsError :=
  if panel_live kp.2 then catch_fails (plugin_answer env kp.1) else None.

(** The effects of one turn of the loop of the plugin scope. *)
Definition plugin_visit_effects (env : Env)
    (kp : string * PanelPluginMeta) : list Effect :=
  if panel_live kp.2
  then CallLoadPlugin kp.1
         :: option_list (SetIsHandled
                           <$> (rejection (plugin_answer env kp.1) ≫= markable))
  else [].

(** Further inputs of the examples. *)
Module MoreExamples.

Definition load_error : JsError := mkJsError "Error" "Failed to fetch module".

(** Telegraf resolves with a channel support of its own, Prometheus
    without one, every other data source is unknown; the graph plugin
    streams, loading the plugin "broken" fails, no other plugin loads. *)
Definition env : Env :=
  {| config_datasources :=
       [("Telegraf", mkDataSourceSettings "Telegraf" "influxdb" true);
        ("Prometheus", Examples.prometheus)];
     config_panels := [("graph", Examples.graph); ("broken", Examples.table)];
     dataSourceSrv_get := fun name =>
       if decide (name = "Telegraf")
       then Resolved (mkDataSourceApi (Some (ExternalSupport 9)))
       else if decide (name = "Prometheus") then Resolved (mkDataSourceApi None)
       else Rejected (mkJsError "Error" "Datasource was not found");
     loadPlugin := fun id =>
       if decide (id = "graph")
       then Resolved (Some (mkGrafanaPlugin (Some (ExternalSupport 7))))
       else if decide (id = "broken") then Rejected load_error
       else Resolved None |}.

(** Prometheus resolves without a channel support and the resolver
    rejects with [undefined] for every other data source; the graph plugin
    streams and the loader rejects with [undefined] for every other
    plugin. *)
Definition rejecting_undefined : Env :=
  {| config_datasources :=
       [("Prometheus", Examples.prometheus); ("Loki", Examples.loki)];
     config_panels := [("graph", Examples.graph); ("table", Examples.table)];
     dataSourceSrv_get := fun name =>
       if decide (name = "Prometheus") then Resolved (mkDataSourceApi None)
       else Rejected ThrownUndefined;
     loadPlugin := fun id =>
       if decide (id = "graph")
       then Resolved (Some (mkGrafanaPlugin (Some (ExternalSupport 7))))
       else Rejected ThrownUndefined |}.

End MoreExamples.

(** * Bar chart utilities and time series suggestions

    From the bar chart [utils] module and the time series suggestions
    supplier.  Numbers that count things (lengths, row counts, field
    counts) are integers. *)

(** ** [shortenValue] *)

(** [value.substring(0, length)]: at most the first [length] characters; a
    negative [length] counts as zero. *)
Definition substring_from_start (value : string) (length : Z) : string :=
  String.substring 0 (Z.to_nat length) value.

Definition shortenValue (value : string) (length : Z) : string :=
  if (Z.of_nat (String.length value) >? length)%Z
  then substring_from_start value length +:+ "..."
  else value.

(** ** [TimeSeriesSuggestionsSupplier] *)

(** Modelled from the spec: the members of [SuggestionName] (declared in
    [app/types/suggestions], not part of the sources at hand) that the
    supplier names. *)
Inductive SuggestionName : Type :=
  | LineChart
  | LineChartSmooth
  | AreaChart
  | BarChart
  | AreaChartStacked
  | AreaChartStackedPercent
  | BarChartStacked
  | BarChartStackedPercent.

#[global] Instance SuggestionName_eq_dec : EqDecision SuggestionName.
Proof. solve_decision. Defined.

Inductive StackingMode : Type :=
  | StackingNone
  | StackingNormal
  | StackingPercent.

#[global] Instance StackingMode_eq_dec : EqDecision StackingMode.
Proof. solve_decision. Defined.

Inductive GraphDrawStyle : Type := DrawLine | DrawBars | DrawPoints.
Inductive GraphGradientMode : Type :=
  GradientNone | GradientOpacity | GradientHue | GradientScheme.
Inductive LineInterpolation : Type :=
  InterpolationLinear | InterpolationSmooth | InterpolationStepBefore
  | InterpolationStepAfter.

#[global] Instance GraphDrawStyle_eq_dec : EqDecision GraphDrawStyle.
Proof. solve_decision. Defined.

Record StackingConfig : Type := mkStacking {
  stacking_mode : StackingMode;
  stacking_group : string;
}.

(** The properties of [GraphFieldConfig] the supplier writes, each absent
    unless written. *)
Record GraphFieldConfig : Type := mkGraphFieldConfig {
  drawStyle : option GraphDrawStyle;
  fillOpacity : option Z;
  lineWidth : option Z;
  gradientMode : option GraphGradientMode;
  lineInterpolation : option LineInterpolation;
  stacking : option StackingConfig;
}.

(** The argument of one [list.append] call: the suggestion's [name] and,
    when the call gives a [fieldConfig], its [defaults.custom] (the
    [overrides] are always empty). *)
Record Suggestion : Type := mkSuggestion {
  suggestion_name : SuggestionName;
  suggestion_custom : option GraphFieldConfig;
}.

(** The properties of [builder.dataSummary] the supplier reads. *)
Record DataSummary : Type := mkDataSummary {
  hasTimeField : bool;
  hasNumberField : bool;
  rowCountTotal : nat;
  rowCountMax : nat;
  numberFieldCount : nat;
}.

(** [a / b < c] on counts: a division by zero gives [Infinity] or [NaN],
    neither of which is below [c]. *)
Definition quotient_below (a b c : nat) : bool :=
  match b with
  | 0 => false
  | S _ => a <? c * b
  end.

Definition maxBarsCount : nat := 100.

Definition bars_config (stack : option StackingConfig) : GraphFieldConfig :=
  {| drawStyle := Some DrawBars;
     fillOpacity := Some 100%Z;
     lineWidth := Some 1%Z;
     gradientMode := Some GradientHue;
     lineInterpolation := None;
     stacking := stack |}.

Definition area_config (stack : option StackingConfig) : GraphFieldConfig :=
  {| drawStyle := None;
     fillOpacity := Some 25%Z;
     lineWidth := None;
     gradientMode := None;
     lineInterpolation := None;
     stacking := stack |}.

Definition smooth_config : GraphFieldConfig :=
  {| drawStyle := None;
     fillOpacity := None;
     lineWidth := None;
     gradientMode := None;
     lineInterpolation := Some InterpolationSmooth;
     stacking := None |}.

(** The [list.append] calls [getSuggestionsForData] makes, in order. *)
Definition getSuggestionsForData (dataSummary : DataSummary) : list Suggestion :=
  if negb (hasTimeField dataSummary) || negb (hasNumberField dataSummary)
     || (rowCountTotal dataSummary <? 2)
  then []
  else
    [mkSuggestion LineChart None]
    ++ (if rowCountMax dataSummary <? 200
        then [mkSuggestion LineChartSmooth (Some smooth_config)] else [])
    ++ (if numberFieldCount dataSummary =? 1
        then
          [mkSuggestion AreaChart (Some (area_config None))]
          ++ (if rowCountMax dataSummary <? maxBarsCount
              then [mkSuggestion BarChart (Some (bars_config None))] else [])
        else
          [mkSuggestion AreaChartStacked
             (Some (area_config (Some (mkStacking StackingNormal "A"))));
           mkSuggestion AreaChartStackedPercent
             (Some (area_config (Some (mkStacking StackingPercent "A"))))]
          ++ (if quotient_below (rowCountTotal dataSummary)
                   (numberFieldCount dataSummary) maxBarsCount
              then
                [mkSuggestion BarChartStacked
                   (Some (bars_config (Some (mkStacking StackingNormal "A"))));
                 mkSuggestion BarChartStackedPercent
                   (Some (bars_config (Some (mkStacking StackingPercent "A"))))]
              else [])).

(** ** Data frames

    The shapes of [@grafana/data] the bar chart utilities read and write.
    Where an object is copied with a spread, the properties the code does
    not name travel as an opaque list of (property, value) pairs.  A field
    object and its [state] object are taken to belong to one field only:
    no object occurs twice in the input. *)

Definition Props : Type := list (string * nat).

Inductive FieldType : Type :=
  | FieldTime | FieldNumber | FieldString | FieldBoolean | FieldTrace | FieldOther.

#[global] Instance FieldType_eq_dec : EqDecision FieldType.
Proof. solve_decision. Defined.

(** A JavaScript number: not a number, an infinity, or a finite value
    [mantissa * 2 ^ exponent]. *)
Inductive JsNumber : Type :=
  | NaN
  | PosInfinity
  | NegInfinity
  | Finite (mantissa exponent : Z).

Inductive JsValue : Type :=
  | VUndefined
  | VNull
  | VNumber (x : JsNumber)
  | VString (s : string)
  | VBoolean (b : bool)
  | VObject (id : nat).

#[global] Instance JsNumber_eq_dec : EqDecision JsNumber.
Proof. solve_decision. Defined.
#[global] Instance JsValue_eq_dec : EqDecision JsValue.
Proof. solve_decision. Defined.

(** [Number.isFinite(v)] *)
Definition Number_isFinite (v : JsValue) : bool :=
  match v with
  | VNumber (Finite _ _) => true
  | _ => false
  end.

(** [v == null] *)
Definition is_nullish (v : JsValue) : bool :=
  match v with
  | VUndefined | VNull => true
  | _ => false
  end.

Record FieldState : Type := mkFieldState {
  seriesIndex : option nat;
  state_rest : Props;
}.

Record CustomConfig : Type := mkCustomConfig {
  custom_stacking : option StackingConfig;
  custom_rest : Props;
}.

Record FieldConfig : Type := mkFieldConfig {
  config_unit : option string;
  config_custom : option CustomConfig;
  config_rest : Props;
}.

(** A display processor: one that came with the input, or the one
    [getDisplayProcessor] returns for a copied field and the theme. *)
Inductive DisplayProcessor : Type :=
  | GivenDisplay (id : nat)
  | FromGetDisplayProcessor.

Record Field : Type := mkField {
  field_name : string;
  field_type : FieldType;
  field_config : FieldConfig;
  field_values : list JsValue;
  field_state : option FieldState;
  field_display : option DisplayProcessor;
  field_rest : Props;
}.

Record DataFrame : Type := mkDataFrame {
  frame_fields : list Field;
  frame_rest : Props;
}.

(** A statement completes normally or throws. *)
Inductive Completion (A : Type) : Type :=
  | Returns (a : A)
  | Throws (e : JsError).
Arguments Returns {A} a.
Arguments Throws {A} e.

(** ** [preparePlotFrame] *)

(** The error of reading a property of [undefined]; its message is the
    engine's. *)
Definition TypeError_undefined (property : string) : JsError :=
  {| err_name := "TypeError";
     err_message := "Cannot read properties of undefined (reading '"
                    +:+ property +:+ "')" |}.

(** The fields given to [resultFrame.addField], in call order, on the new
    [MutableDataFrame] the function returns. *)
Definition preparePlotFrame (data : list DataFrame) : Completion (list Field) :=
  match data with
  | [] => Throws (TypeError_undefined "fields")
  | firstFrame :: _ =>
      match List.find (fun f => bool_decide (field_type f = FieldString))
              (frame_fields firstFrame) with
      | None => Throws (new_Error "No string field in DF")
      | Some firstString =>
          Returns
            (firstString
               :: List.filter (fun f => bool_decide (field_type f = FieldNumber))
                    (frame_fields firstFrame))
      end
  end.

(** ** [prepareGraphableFrames] *)

(** The callback mapped over the values of a number field. *)
Definition graphable_value (v : JsValue) : JsValue :=
  if negb (Number_isFinite v || is_nullish v) then VNull else v.

(** [field.state = field.state ?? {}; field.state.seriesIndex = n] *)
Definition with_seriesIndex (n : nat) (field : Field) : Field :=
  {| field_name := field_name field;
     field_type := field_type field;
     field_config := field_config field;
     field_values := field_values field;
     field_state :=
       Some {| seriesIndex := Some n;
               state_rest := match field_state field with
                             | Some st => state_rest st
                             | None => []
                             end |};
     field_display := field_display field;
     field_rest := field_rest field |}.

(** The copy pushed for a number field whose state is already numbered. *)
Definition graphable_copy (stacking : StackingMode) (field : Field) : Field :=
  {| field_name := field_name field;
     field_type := field_type field;
     field_config :=
       {| config_unit :=
            if decide (stacking = StackingPercent) then Some "percentunit"
            else config_unit (field_config field);
          config_custom :=
            Some {| custom_stacking :=
                      Some {| stacking_mode := stacking; stacking_group := "_" |};
                    custom_rest :=
                      match config_custom (field_config field) with
                      | Some custom => custom_rest custom
                      | None => []
                      end |};
          config_rest := config_rest (field_config field) |};
     field_values := graphable_value <$> field_values field;
     field_state := field_state field;
     field_display :=
       if decide (stacking = StackingPercent) then Some FromGetDisplayProcessor
       else field_display field;
     field_rest := field_rest field |}.

(** The inner loop: the copies pushed, the fields of the input frame as
    the loop leaves them, and the next series index. *)
Fixpoint graphable_fields (stacking : StackingMode) (fields : list Field)
    (next : nat) : list Field * list Field * nat :=
  match fields with
  | [] => ([], [], next)
  | field :: rest =>
      if decide (field_type field = FieldNumber) then
        let field' := with_seriesIndex next field in
        let '(copies, fields', next') := graphable_fields stacking rest (S next) in
        (graphable_copy stacking field' :: copies, field' :: fields', next')
      else
        let '(copies, fields', next') := graphable_fields stacking rest next in
        (field :: copies, field :: fields', next')
  end.

(** The outer loop. *)
Fixpoint graphable_frames (stacking : StackingMode) (series : list DataFrame)
    (next : nat) : list DataFrame * list DataFrame * nat :=
  match series with
  | [] => ([], [], next)
  | frame :: rest =>
      let '(copies, fields', next') :=
        graphable_fields stacking (frame_fields frame) next in
      let '(frames, series', next'') := graphable_frames stacking rest next' in
      ({| frame_fields := copies; frame_rest := frame_rest frame |} :: frames,
       {| frame_fields := fields'; frame_rest := frame_rest frame |} :: series',
       next'')
  end.

Record GraphableFrames : Type := mkGraphableFrames {
  frames : option (list DataFrame);
  warn : option string;
}.

Definition has_field_of_type (t : FieldType) (frame : DataFrame) : bool :=
  existsb (fun f => bool_decide (field_type f = t)) (frame_fields frame).

(** The value returned, and the input series as the call leaves it ([None]
    stands for an [undefined] or [null] series). *)
Definition prepareGraphableFrames (series : option (list DataFrame))
    (stacking : StackingMode) : GraphableFrames * option (list DataFrame) :=
  match series with
  | None | Some [] =>
      ({| frames := None; warn := Some "No data in response" |}, series)
  | Some ((firstFrame :: _) as series') =>
      if negb (has_field_of_type FieldString firstFrame) then
        ({| frames := None; warn := Some "Bar charts requires a string field" |},
         series)
      else if negb (has_field_of_type FieldNumber firstFrame) then
        ({| frames := None; warn := Some "No numeric fields found" |}, series)
      else
        let '(frames, mutated, _) := graphable_frames stacking series' 0 in
        ({| frames := Some frames; warn := None |}, Some mutated)
  end.

(** What relates a field of the input to the field pushed for it when the
    field is given the series index [n]. *)
Definition graphable_of (stacking : StackingMode) (n : nat) (field copy : Field)
  : Prop :=
  if decide (field_type field = FieldNumber)
  then copy = graphable_copy stacking (with_seriesIndex n field)
  else copy = field.

(** The series indices of the number fields of a list of fields. *)
Definition series_indices (fields : list Field) : list (option nat) :=
  (fun f => field_state f ≫= seriesIndex)
    <$> filter (fun f => field_type f = FieldNumber) fields.

(** A value a graphable number field may hold. *)
Definition graphable (v : JsValue) : Prop :=
  Number_isFinite v = true \/ is_nullish v = true.

(** ** [getRotationAngle] *)

(** Modelled from the spec: [ValueRotationMode] and [ValueRotationConfig]
    are declared in [./types], which is not part of the sources at hand;
    the function reads the [mode] and the [customRotation], which may be
    absent. *)
Inductive ValueRotationMode : Type :=
  | RotationNone | RotationCustom | RotationSlope | RotationVertical.

Record ValueRotationConfig : Type := mkValueRotationConfig {
  rotation_mode : ValueRotationMode;
  customRotation : option JsNumber;
}.

(** The numbers that count as false: zero and NaN. *)
Definition falsy_number (x : JsNumber) : bool :=
  match x with
  | NaN => true
  | Finite mantissa _ => (mantissa =? 0)%Z
  | PosInfinity | NegInfinity => false
  end.

Definition getRotationAngle (config : ValueRotationConfig) : JsNumber :=
  match rotation_mode config with
  | RotationNone => Finite 0 0
  | RotationCustom =>
      match customRotation config with
      | Some x => if falsy_number x then Finite 0 0 else x
      | None => Finite 0 0
      end
  | RotationSlope => Finite (-45) 0
  | RotationVertical => Finite (-90) 0
  end.

(** Inputs of the bar chart examples. *)
Module BarExamples.

Definition plain_config : FieldConfig :=
  {| config_unit := None; config_custom := None; config_rest := [] |}.

Definition city : Field :=
  {| field_name := "city"; field_type := FieldString; field_config := plain_config;
     field_values := [VString "Oslo"; VString "Rome"];
     field_state := None; field_display := None; field_rest := [] |}.

Definition sales : Field :=
  {| field_name := "sales"; field_type := FieldNumber; field_config := plain_config;
     field_values := [VNumber (Finite 3 0); VNumber NaN];
     field_state := None; field_display := Some (GivenDisplay 1); field_rest := [] |}.

Definition visits : Field :=
  {| field_name := "visits"; field_type := FieldNumber; field_config := plain_config;
     field_values := [VNull; VString "many"];
     field_state := None; field_display := None; field_rest := [] |}.

Definition series : list DataFrame :=
  [{| frame_fields := [city; sales]; frame_rest := [] |};
   {| frame_fields := [visits]; frame_rest := [] |}].

Definition out : list DataFrame :=
  default [] (frames (prepareGraphableFrames (Some series) StackingPercent).1).

Definition bars : DataSummary :=
  {| hasTimeField := true; hasNumberField := true;
     rowCountTotal := 50; rowCountMax := 50; numberFieldCount := 1 |}.

End BarExamples.

(** * Properties *)

#[local] Set Warnings "-clear-no-such-hyp".

Ltac run :=
  unfold mbind, M_bind, bind, try_catch, await, emit, modify_world,
    array_push, new_LiveMeasurementsSupport, new_array, get_this, set_this,
    ret, throw; cbn.

(** ** The array store *)

Section store.
Context {A : Type}.
Implicit Types (arr : list (list A)) (xs ys : list A).

Lemma push_nothing a arr : alter (fun items => items ++ []) a arr = arr.
Proof. apply list_alter_id. intros; apply app_nil_r. Qed.

Lemma push_push a arr xs ys :
  alter (fun items => items ++ ys) a (alter (fun items => items ++ xs) a arr)
  = alter (fun items => items ++ (xs ++ ys)) a arr.
Proof.
  apply list_eq; intros i. rewrite !list_lookup_alter.
  repeat case_decide; try done.
  destruct (arr !! a); cbn; [|done]. by rewrite app_assoc.
Qed.

Lemma push_new arr xs :
  alter (fun items => items ++ xs) (length arr) (arr ++ [[]]) = arr ++ [xs].
Proof.
  replace (length arr) with (length arr + 0) at 1 by lia.
  by rewrite alter_app_r.
Qed.

Lemma lookup_new arr xs : (arr ++ [xs]) !! length arr = Some xs.
Proof. by rewrite list_lookup_middle. Qed.
End store.

Lemma advanced_nothing {F} a (st : State F) : advanced a [] 0 [] st = st.
Proof.
  destruct st as [s [arr k ev]]. unfold advanced; cbn.
  by rewrite push_nothing, Nat.add_0_r, app_nil_r.
Qed.

Lemma advanced_advanced {F} a xs ys n m ev ev' (st : State F) :
  advanced a ys m ev' (advanced a xs n ev st)
  = advanced a (xs ++ ys) (n + m) (ev ++ ev') st.
Proof.
  unfold advanced; cbn. by rewrite push_push, Nat.add_assoc, app_assoc.
Qed.

(** ** Loops whose body pushes at most one entry and may throw *)

Lemma scanned_complete {X} (abort : X -> option JsError) (entries : list X) :
  scan_error abort entries = None -> scanned abort entries = entries.
Proof.
  induction entries as [|x entries IH]; [done|]. cbn.
  destruct (abort x); [done|]. intros Hrest. by rewrite IH.
Qed.

Lemma scanned_prefix {X} (abort : X -> option JsError) (entries : list X) :
  exists rest, entries = scanned abort entries ++ rest.
Proof.
  induction entries as [|x entries [rest IH]]; [by exists []|]. cbn.
  destruct (abort x).
  - by exists entries.
  - exists rest. by rewrite <- IH.
Qed.

Lemma scan_error_none {X} (abort : X -> option JsError) (entries : list X) :
  scan_error abort entries = None <-> forall x, x ∈ entries -> abort x = None.
Proof.
  induction entries as [|x entries IH]; cbn.
  - split; [|done]. intros _ x Hx. by apply elem_of_nil in Hx.
  - destruct (abort x) eqn:Hx.
    + split; [done|]. intros Hall. rewrite Hall in Hx; [done|by left].
    + rewrite IH. split.
      * intros Hall y [->|Hy]%elem_of_cons; auto.
      * intros Hall y Hy. apply Hall. by right.
Qed.

Lemma scan_error_some {X} (abort : X -> option JsError) (entries : list X) e :
  scan_error abort entries = Some e -> exists x, x ∈ entries /\ abort x = Some e.
Proof.
  induction entries as [|x entries IH]; [done|]. cbn.
  destruct (abort x) eqn:Hx.
  - intros [= ->]. exists x. split; [by left|done].
  - intros Hrest. destruct (IH Hrest) as (y & Hy & Hay).
    exists y. split; [by right|done].
Qed.

Lemma catch_fails_TypeError {A} (o : Outcome A) e :
  catch_fails o = Some e -> err_name e = "TypeError".
Proof. destruct o as [?|[]]; cbn; by intros [= <-]. Qed.

Section scan.
Context {F V : Type}.
Variable visit : string -> V -> M F unit.
Variable listing : string * V -> option SelectableValue.
Variable built : string * V -> nat.
Variable fx : string * V -> list Effect.
Variable abort : string * V -> option JsError.
Variable a : nat.

Hypothesis visit_trace : forall key x st,
  visit key x st =
  (match abort (key, x) with
   | Some e => Rejected (ThrownError e)
   | None => Resolved tt
   end,
   advanced a (option_list (listing (key, x))) (built (key, x)) (fx (key, x)) st).

Lemma scan_trace entries : forall st,
  for_of entries visit st =
  (match scan_error abort entries with
   | Some e => Rejected (ThrownError e)
   | None => Resolved tt
   end,
   advanced a (omap listing (scanned abort entries))
     (sum_list (built <$> scanned abort entries))
     (scanned abort entries ≫= fx) st).
Proof.
  induction entries as [|[key x] entries IH]; intros st.
  - cbn. by rewrite advanced_nothing.
  - cbn [for_of scanned scan_error]. unfold mbind at 1, M_bind, bind.
    rewrite visit_trace. destruct (abort (key, x)) as [e|].
    + f_equal. cbn. rewrite Nat.add_0_r, app_nil_r.
      by destruct (listing (key, x)).
    + rewrite IH, advanced_advanced.
      do 2 f_equal. cbn. by destruct (listing (key, x)).
Qed.
End scan.

(** ** The core scope *)

Lemma register_run f st :
  GrafanaLiveCoreScope.register f st =
  (Resolved tt,
   {| this := {| GrafanaLiveCoreScope.features :=
                   insert_feature (GrafanaLiveCoreScope.features (this st)) f;
                 GrafanaLiveCoreScope.namespaces :=
                   GrafanaLiveCoreScope.namespaces (this st) |};
      world := world (advanced (GrafanaLiveCoreScope.namespaces (this st))
                        [feature_entry f] 0 [] st) |}).
Proof.
  destruct st as [s [arr k ev]].
  unfold GrafanaLiveCoreScope.register, advanced. run.
  by rewrite Nat.add_0_r, app_nil_r.
Qed.

Lemma register_all_run fs : forall st,
  register_all fs st =
  (Resolved tt,
   {| this := {| GrafanaLiveCoreScope.features :=
                   foldl insert_feature (GrafanaLiveCoreScope.features (this st)) fs;
                 GrafanaLiveCoreScope.namespaces :=
                   GrafanaLiveCoreScope.namespaces (this st) |};
      world := world (advanced (GrafanaLiveCoreScope.namespaces (this st))
                        (feature_entry <$> fs) 0 [] st) |}).
Proof.
  induction fs as [|f fs IH]; intros st.
  - change (feature_entry <$> []) with (@nil SelectableValue).
    rewrite advanced_nothing. by destruct st as [[m ns] w].
  - cbn [register_all]. unfold mbind, M_bind, bind.
    rewrite register_run, IH. unfold advanced; cbn.
    by rewrite push_push, !Nat.add_0_r, !app_nil_r.
Qed.

Lemma lookup_registered_notin n fs : forall m,
  n ∉ feature_name <$> fs -> foldl insert_feature m fs !! n = m !! n.
Proof.
  induction fs as [|f fs IH]; intros m Hn; [done|].
  rewrite fmap_cons, not_elem_of_cons in Hn. destruct Hn as [Hne Hn].
  cbn. rewrite IH by done. unfold insert_feature. by rewrite lookup_insert_ne.
Qed.

Lemma lookup_registered_last fs1 f fs2 m :
  feature_name f ∉ feature_name <$> fs2 ->
  foldl insert_feature m (fs1 ++ f :: fs2) !! feature_name f
  = Some (feature_support f).
Proof.
  intros Hn. rewrite foldl_app. cbn.
  rewrite lookup_registered_notin by done.
  unfold insert_feature. by rewrite lookup_insert_eq.
Qed.

Lemma dom_registered fs : forall m,
  dom (foldl insert_feature m fs) = dom m ∪ list_to_set (feature_name <$> fs).
Proof.
  induction fs as [|f fs IH]; intros m; cbn.
  - set_solver.
  - rewrite IH. unfold insert_feature. rewrite dom_insert_L. set_solver.
Qed.

Lemma core_getChannelSupport_run ns (st : State GrafanaLiveCoreScope.t) :
  GrafanaLiveCoreScope.getChannelSupport ns st =
  (match GrafanaLiveCoreScope.features (this st) !! ns with
   | Some v => Resolved v
   | None => Rejected (new_Error ("unknown feature: " +:+ ns))
   end, st).
Proof.
  unfold GrafanaLiveCoreScope.getChannelSupport. run.
  by destruct (GrafanaLiveCoreScope.features (this st) !! ns).
Qed.

(** C1. Registering never fails, and after any sequence of [register] calls
    on the core scope (starting from any state of the scope) the lookup of a
    registered name resolves with the support passed to the most recent
    registration of that name: if [f] is registered and no later
    registration uses its name, [getChannelSupport (name f)] is
    [support f], whatever was registered under that name before. *)
Theorem core_getChannelSupport_last_registered
    (fs1 : list CoreGrafanaLiveFeature) (f : CoreGrafanaLiveFeature)
    (fs2 : list CoreGrafanaLiveFeature) (st : State GrafanaLiveCoreScope.t) :
  feature_name f ∉ feature_name <$> fs2 ->
  let r := register_all (fs1 ++ f :: fs2) st in
  fst r = Resolved tt /\
  fst (GrafanaLiveCoreScope.getChannelSupport (feature_name f) (snd r))
  = Resolved (feature_support f).
Proof.
  intros Hn r. subst r. rewrite register_all_run. split; [done|].
  rewrite core_getChannelSupport_run. cbn.
  by rewrite lookup_registered_last.
Qed.

Lemma core_getChannelSupport_last_registered_witness :
  fst (register_all ([Examples.alpha; Examples.beta] ++ Examples.alpha' :: [Examples.beta])
         Examples.fresh_core) = Resolved tt /\
  fst (GrafanaLiveCoreScope.getChannelSupport "alpha"
         (snd (register_all ([Examples.alpha; Examples.beta] ++ Examples.alpha' :: [Examples.beta])
                 Examples.fresh_core)))
  = Resolved (ExternalSupport 2).
Proof.
  apply (core_getChannelSupport_last_registered
           [Examples.alpha; Examples.beta] Examples.alpha' [Examples.beta]
           Examples.fresh_core).
  by apply (bool_decide_unpack _).
Defined.

(** C2, as stated, fails: a name registered twice is listed twice, so the
    list is not one entry per distinct name. *)
Lemma core_listNamespaces_duplicate_counterexample :
  let st := snd (register_all [Examples.alpha; Examples.alpha'] Examples.fresh_core) in
  size (GrafanaLiveCoreScope.features (this st)) = 1 /\
  exists l, listed (GrafanaLiveCoreScope.listNamespaces st) = Some l /\
            length l = 2 /\ ~ NoDup (sv_value <$> l).
Proof.
  split; [by vm_compute|].
  eexists; split; [by vm_compute|]. split; [done|].
  cbn. intros Hnd. apply NoDup_cons in Hnd as [Hin _].
  apply Hin. by left.
Qed.

(** C2, amended. After registering [fs] on a new core scope,
    [listNamespaces] resolves with the scope's [namespaces] array, leaving
    the scope as it is; the array holds one entry per [register] call, in
    call order, each with [value] and [label] the feature's name and
    [description] the description given in that call; and the names listed
    are exactly the registered names. *)
Theorem core_listNamespaces_registration_order
    (fs : list CoreGrafanaLiveFeature) (w : World) :
  let st := snd (register_all fs (GrafanaLiveCoreScope.new w)) in
  let r := GrafanaLiveCoreScope.listNamespaces st in
  r = (Resolved (GrafanaLiveCoreScope.namespaces (this st)), st) /\
  listed r =
    Some ((fun f => {| sv_value := Some (feature_name f);
                       sv_label := Some (feature_name f);
                       sv_description := Some (feature_description f) |}) <$> fs) /\
  dom (GrafanaLiveCoreScope.features (this st)) = list_to_set (feature_name <$> fs).
Proof.
  intros st r. subst r st. rewrite register_all_run. cbn [snd].
  split; [done|]. split.
  - unfold listed, GrafanaLiveCoreScope.listNamespaces, get_this. cbn.
    by rewrite push_new, lookup_new.
  - cbn. rewrite dom_registered. set_solver.
Qed.

(** C7, as stated, fails: the error thrown for an unknown feature is an
    instance of the built-in [Error], not of a class [NotFoundError]. *)
Lemma core_getChannelSupport_error_class_counterexample :
  ~ exists e : JsError, fst (GrafanaLiveCoreScope.getChannelSupport "beta"
                    (snd (register_all [Examples.alpha] Examples.fresh_core)))
              = Rejected e /\
              err_name e = "NotFoundError".
Proof. intros (e & He & Hname). vm_compute in He. by simplify_eq. Qed.

(** C7, amended. On the core scope, the lookup of a name that is not
    registered (absent from the scope at the start and not registered since)
    is rejected with a plain [Error] whose message is
    ["unknown feature: "] followed by the name. *)
Theorem core_getChannelSupport_unregistered
    (fs : list CoreGrafanaLiveFeature) (st : State GrafanaLiveCoreScope.t)
    (ns : string) :
  GrafanaLiveCoreScope.features (this st) !! ns = None ->
  ns ∉ feature_name <$> fs ->
  fst (GrafanaLiveCoreScope.getChannelSupport ns (snd (register_all fs st)))
  = Rejected {| err_name := "Error";
                err_message := "unknown feature: " +:+ ns |}.
Proof.
  intros Hst Hfs. rewrite register_all_run, core_getChannelSupport_run. cbn.
  by rewrite lookup_registered_notin, Hst.
Qed.

Lemma core_getChannelSupport_unregistered_witness :
  fst (GrafanaLiveCoreScope.getChannelSupport "beta"
         (snd (register_all [Examples.alpha] Examples.fresh_core)))
  = Rejected {| err_name := "Error"; err_message := "unknown feature: beta" |}.
Proof.
  apply (core_getChannelSupport_unregistered [Examples.alpha] Examples.fresh_core "beta").
  - reflexivity.
  - by apply (bool_decide_unpack _).
Defined.

(** ** The data source scope *)

Lemma datasource_getChannelSupport_run env ns (st : State GrafanaLiveDataSourceScope.t) :
  GrafanaLiveDataSourceScope.getChannelSupport env ns st =
  match dataSourceSrv_get env ns with
  | Resolved ds =>
      match ds_channelSupport ds with
      | Some s => (Resolved s, advanced 0 [] 0 [CallDataSourceGet ns] st)
      | None => (Resolved (LiveMeasurementsSupport (measurements_built (world st))),
                 advanced 0 [] 1 [CallDataSourceGet ns] st)
      end
  | Rejected e => (Rejected e, advanced 0 [] 0 [CallDataSourceGet ns] st)
  end.
Proof.
  destruct st as [s [arr k ev]].
  unfold GrafanaLiveDataSourceScope.getChannelSupport, advanced. run.
  rewrite push_nothing, Nat.add_0_r, Nat.add_1_r.
  destruct (dataSourceSrv_get env ns) as [ds|e]; [|done].
  by destruct (ds_channelSupport ds).
Qed.

Lemma datasource_visit_trace env a key ds st :
  GrafanaLiveDataSourceScope.visit env a key ds st =
  (match datasource_abort env (key, ds) with
   | Some e => Rejected (ThrownError e)
   | None => Resolved tt
   end,
   advanced a (option_list (datasource_listing env (key, ds)))
     (datasource_visit_built env (key, ds))
     (datasource_visit_effects env (key, ds)) st).
Proof.
  unfold GrafanaLiveDataSourceScope.visit, datasource_listing, datasource_resolves,
    datasource_visit_built, datasource_visit_effects, datasource_defaults,
    datasource_abort. cbn.
  destruct (dss_meta_live ds); cbn.
  - unfold try_catch, mbind, M_bind, bind.
    rewrite datasource_getChannelSupport_run.
    destruct (dataSourceSrv_get env key) as [api|err]; cbn.
    + destruct (ds_channelSupport api); cbn;
        unfold array_push, modify_world, advanced; cbn;
        by rewrite push_nothing, ?Nat.add_0_r, <- ?app_assoc.
    + destruct err; cbn; unfold set_isHandled, emit, throw, modify_world, advanced;
        cbn; by rewrite ?push_nothing, ?Nat.add_0_r, <- ?app_assoc.
  - unfold ret. by rewrite advanced_nothing.
Qed.

(** The first [listNamespaces] on a scope scans the configuration into a
    new array; it caches the array unless the scan throws. *)
Lemma datasource_listNamespaces_trace env (w : World) :
  GrafanaLiveDataSourceScope.listNamespaces env
    {| this := GrafanaLiveDataSourceScope.new; world := w |} =
  (match scan_error (datasource_abort env) (config_datasources env) with
   | Some e => Rejected (ThrownError e)
   | None => Resolved (length (arrays w))
   end,
   {| this :=
        match scan_error (datasource_abort env) (config_datasources env) with
        | Some _ => GrafanaLiveDataSourceScope.new
        | None => {| GrafanaLiveDataSourceScope.names := Some (length (arrays w)) |}
        end;
      world :=
        {| arrays :=
             arrays w
             ++ [omap (datasource_listing env)
                   (scanned (datasource_abort env) (config_datasources env))];
           measurements_built :=
             measurements_built w
             + sum_list (datasource_visit_built env
                           <$> scanned (datasource_abort env) (config_datasources env));
           effects :=
             effects w
             ++ (scanned (datasource_abort env) (config_datasources env)
                   ≫= datasource_visit_effects env) |} |}).
Proof.
  unfold GrafanaLiveDataSourceScope.listNamespaces. run.
  rewrite (scan_trace _ _ _ _ _ _ (datasource_visit_trace env (length (arrays w)))).
  unfold advanced; cbn. rewrite push_new.
  by destruct (scan_error (datasource_abort env) (config_datasources env)).
Qed.


(** C4. On a new data source scope, when the first [listNamespaces]
    resolves, it resolves with a newly allocated array that holds the list
    it scanned (possibly empty) and that it has stored in [names]; and a
    second call, under any configuration snapshot and collaborators
    whatsoever, resolves with that same array and changes nothing: neither
    the scope, nor the content of any array, nor the log of collaborator
    calls (no scan takes place). *)
Theorem datasource_listNamespaces_cached
    (env env' : Env) (w : World) (a : nat) :
  let r := GrafanaLiveDataSourceScope.listNamespaces env
             {| this := GrafanaLiveDataSourceScope.new; world := w |} in
  fst r = Resolved a ->
  a = length (arrays w) /\
  GrafanaLiveDataSourceScope.names (this (snd r)) = Some a /\
  listed r = Some (omap (datasource_listing env) (config_datasources env)) /\
  GrafanaLiveDataSourceScope.listNamespaces env' (snd r) = (Resolved a, snd r).
Proof.
  cbn zeta. rewrite datasource_listNamespaces_trace. unfold listed.
  destruct (scan_error (datasource_abort env) (config_datasources env))
    as [e|] eqn:Hscan; [done|].
  cbn [fst snd this world arrays]. intros [= <-].
  rewrite (scanned_complete _ _ Hscan), lookup_new. by split_and!.
Qed.

Lemma datasource_listNamespaces_cached_witness :
  0 = length (arrays empty_world) /\
  GrafanaLiveDataSourceScope.names
    (this (snd (GrafanaLiveDataSourceScope.listNamespaces Examples.env
                  {| this := GrafanaLiveDataSourceScope.new; world := empty_world |})))
  = Some 0 /\
  listed (GrafanaLiveDataSourceScope.listNamespaces Examples.env
            {| this := GrafanaLiveDataSourceScope.new; world := empty_world |})
  = Some (omap (datasource_listing Examples.env) (config_datasources Examples.env)) /\
  GrafanaLiveDataSourceScope.listNamespaces Examples.empty_env
    (snd (GrafanaLiveDataSourceScope.listNamespaces Examples.env
            {| this := GrafanaLiveDataSourceScope.new; world := empty_world |}))
  = (Resolved 0,
     snd (GrafanaLiveDataSourceScope.listNamespaces Examples.env
            {| this := GrafanaLiveDataSourceScope.new; world := empty_world |})).
Proof.
  apply (datasource_listNamespaces_cached Examples.env Examples.empty_env
           empty_world 0).
  reflexivity.
Defined.

(** The cache also holds an empty scan: with no data source configured the
    first call lists nothing, and a call under a configuration that has live
    data sources still answers with that same empty array. *)
Example empty_scan_is_cached :
  let r := GrafanaLiveDataSourceScope.listNamespaces Examples.empty_env
             {| this := GrafanaLiveDataSourceScope.new; world := empty_world |} in
  listed r = Some [] /\
  GrafanaLiveDataSourceScope.listNamespaces Examples.env (snd r) = (fst r, snd r).
Proof. by vm_compute. Qed.

Lemma datasource_listing_live env
    (entries : list (string * DataSourceInstanceSettings)) :
  omap (datasource_listing env) entries
  = omap (datasource_listing env)
      (filter (fun kd => dss_meta_live kd.2 = true) entries).
Proof.
  induction entries as [|[key ds] entries IH]; [done|].
  rewrite filter_cons. cbn [omap list_omap]. case_decide as Hlive; cbn in Hlive.
  - cbn [omap list_omap]. by rewrite IH.
  - unfold datasource_listing at 1. cbn.
    destruct (dss_meta_live ds); [done|]. cbn. apply IH.
Qed.

(** When the resolver rejects with an ordinary error object, the scan skips
    the entry.  On a new data source scope, if the live-flagged entries of
    the configuration are two (in either order, among any number of entries
    not flagged live), the resolver settling with an instance for the one
    and rejecting with an error object for the other, then [listNamespaces]
    resolves with a list of exactly one entry, that of the data source that
    resolved. *)
Lemma datasource_listNamespaces_skips_error_object
    (env : Env) (w : World)
    (good bad : string * DataSourceInstanceSettings)
    (api : DataSourceApi) (err : JsError) :
  filter (fun kd => dss_meta_live kd.2 = true) (config_datasources env) ≡ₚ [good; bad] ->
  dataSourceSrv_get env good.1 = Resolved api ->
  dataSourceSrv_get env bad.1 = Rejected (ThrownError err) ->
  let r := GrafanaLiveDataSourceScope.listNamespaces env
             {| this := GrafanaLiveDataSourceScope.new; world := w |} in
  resolves (fst r) = true /\
  listed r = Some [{| sv_value := Some (dss_type good.2);
                      sv_label := Some (dss_name good.2);
                      sv_description := Some (dss_type good.2) |}].
Proof.
  intros Hlive Hgood Hbad r. subst r.
  rewrite datasource_listNamespaces_trace.
  assert (dss_meta_live good.2 = true /\ dss_meta_live bad.2 = true) as [Hg Hb].
  { split.
    - eapply (list_elem_of_filter (fun kd => dss_meta_live kd.2 = true)).
      rewrite Hlive. by left.
    - eapply (list_elem_of_filter (fun kd => dss_meta_live kd.2 = true)).
      rewrite Hlive. right; by left. }
  assert (scan_error (datasource_abort env) (config_datasources env) = None)
    as Hscan.
  { apply scan_error_none. intros [key ds] Hin. unfold datasource_abort. cbn.
    destruct (dss_meta_live ds) eqn:Hds; [|done].
    assert ((key, ds) ∈ [good; bad]) as Hmem.
    { rewrite <- Hlive. by apply list_elem_of_filter. }
    apply elem_of_cons in Hmem as [<-|Hmem]; [cbn in *; by rewrite Hgood|].
    apply list_elem_of_singleton in Hmem as <-. cbn in *. by rewrite Hbad. }
  rewrite Hscan, (scanned_complete _ _ Hscan).
  split; [done|]. unfold listed; cbn [fst snd world arrays].
  rewrite lookup_new, datasource_listing_live. f_equal.
  symmetry in Hlive.
  apply Permutation_length_2_inv in Hlive as [-> | ->]; cbn;
    unfold datasource_listing, datasource_resolves;
    by rewrite Hg, Hb, Hgood, Hbad.
Qed.

(** C5, at the failing input: two live data sources, the resolver settling
    with an instance for the first and rejecting with [undefined] for the
    second.  The [catch] block itself throws when it marks the rejection, so
    [listNamespaces] is rejected with that [TypeError]: it returns no list,
    not even the entry of the data source that resolved, and it caches
    nothing. *)
Theorem datasource_listNamespaces_undefined_rejection :
  let env := MoreExamples.rejecting_undefined in
  let r := GrafanaLiveDataSourceScope.listNamespaces env
             {| this := GrafanaLiveDataSourceScope.new; world := empty_world |} in
  config_datasources env
  = [("Prometheus", Examples.prometheus); ("Loki", Examples.loki)] /\
  dss_meta_live Examples.prometheus = true /\
  dss_meta_live Examples.loki = true /\
  dataSourceSrv_get env "Prometheus" = Resolved (mkDataSourceApi None) /\
  dataSourceSrv_get env "Loki" = Rejected ThrownUndefined /\
  fst r = Rejected
            (ThrownError
               {| err_name := "TypeError";
                  err_message :=
                    "Cannot set properties of undefined (setting 'isHandled')" |}) /\
  listed r = None /\
  GrafanaLiveDataSourceScope.names (this (snd r)) = None.
Proof. by vm_compute. Qed.

(** ** The plugin scope *)

Lemma plugin_getChannelSupport_run env ns (st : State GrafanaLivePluginScope.t) :
  GrafanaLivePluginScope.getChannelSupport env ns st =
  (match loadPlugin env ns with
   | Resolved None => Rejected (new_Error ("Unknown streaming plugin: " +:+ ns))
   | Resolved (Some plugin) =>
       match plugin_channelSupport plugin with
       | Some s => Resolved s
       | None => Rejected (new_Error ("Plugin does not support streaming: " +:+ ns))
       end
   | Rejected e => Rejected e
   end,
   advanced 0 [] 0 [CallLoadPlugin ns] st).
Proof.
  destruct st as [s [arr k ev]].
  unfold GrafanaLivePluginScope.getChannelSupport, advanced. run.
  rewrite push_nothing, Nat.add_0_r.
  destruct (loadPlugin env ns) as [[plugin|]|e]; try done.
  by destruct (plugin_channelSupport plugin).
Qed.

(** C6, as stated, fails: the error thrown for a plugin that loads without
    a channel support is an instance of the built-in [Error], the same class
    as the error thrown for a plugin that does not load; no class
    [UnsupportedError] sets the two apart. *)
Lemma plugin_getChannelSupport_error_class_counterexample :
  ~ exists e : JsError, fst (GrafanaLivePluginScope.getChannelSupport Examples.env "table"
                    {| this := GrafanaLivePluginScope.new; world := empty_world |})
              = Rejected e /\
              err_name e = "UnsupportedError" /\
              err_name e <> "NotFoundError".
Proof. intros (e & He & Hname & _). vm_compute in He. by simplify_eq. Qed.

(** C6, amended. On the plugin scope, for every namespace: if the loader
    yields no plugin, [getChannelSupport] is rejected with a plain [Error]
    whose message is ["Unknown streaming plugin: "] followed by the
    namespace; if the plugin loads but declares no channel support, it is
    rejected with a plain [Error] whose message is
    ["Plugin does not support streaming: "] followed by the namespace.  The
    two errors are of the same class and differ in their message. *)
Theorem plugin_getChannelSupport_errors
    (env : Env) (ns : string) (st : State GrafanaLivePluginScope.t) :
  (loadPlugin env ns = Resolved None ->
   fst (GrafanaLivePluginScope.getChannelSupport env ns st)
   = Rejected {| err_name := "Error";
                 err_message := "Unknown streaming plugin: " +:+ ns |}) /\
  (forall plugin,
   loadPlugin env ns = Resolved (Some plugin) ->
   plugin_channelSupport plugin = None ->
   fst (GrafanaLivePluginScope.getChannelSupport env ns st)
   = Rejected {| err_name := "Error";
                 err_message := "Plugin does not support streaming: " +:+ ns |}).
Proof.
  rewrite plugin_getChannelSupport_run. split.
  - by intros ->.
  - by intros plugin -> ->.
Qed.

Lemma plugin_getChannelSupport_errors_witness :
  fst (GrafanaLivePluginScope.getChannelSupport Examples.env "text"
         {| this := GrafanaLivePluginScope.new; world := empty_world |})
  = Rejected {| err_name := "Error";
                err_message := "Unknown streaming plugin: text" |} /\
  fst (GrafanaLivePluginScope.getChannelSupport Examples.env "table"
         {| this := GrafanaLivePluginScope.new; world := empty_world |})
  = Rejected {| err_name := "Error";
                err_message := "Plugin does not support streaming: table" |}.
Proof.
  split.
  - apply (proj1 (plugin_getChannelSupport_errors Examples.env "text"
                    {| this := GrafanaLivePluginScope.new; world := empty_world |})).
    reflexivity.
  - apply (proj2 (plugin_getChannelSupport_errors Examples.env "table"
                    {| this := GrafanaLivePluginScope.new; world := empty_world |})
             (mkGrafanaPlugin None)); reflexivity.
Defined.

Lemma plugin_visit_trace env a key panel st :
  GrafanaLivePluginScope.visit env a key panel st =
  (match plugin_abort env (key, panel) with
   | Some e => Rejected (ThrownError e)
   | None => Resolved tt
   end,
   advanced a (option_list (plugin_listing env (key, panel))) 0
     (plugin_visit_effects env (key, panel)) st).
Proof.
  unfold GrafanaLivePluginScope.visit, plugin_listing, plugin_streams,
    plugin_visit_effects, plugin_abort, plugin_answer. cbn.
  destruct (panel_live panel); cbn.
  - unfold try_catch, mbind, M_bind, bind.
    rewrite plugin_getChannelSupport_run.
    destruct (loadPlugin env key) as [[plugin|]|err]; cbn.
    + destruct (plugin_channelSupport plugin) as [s|]; cbn;
        unfold array_push, set_isHandled, emit, modify_world, advanced; cbn;
        by rewrite ?push_nothing, ?Nat.add_0_r, <- ?app_assoc.
    + unfold set_isHandled, emit, modify_world, advanced. cbn.
      by rewrite !push_nothing, !Nat.add_0_r, <- app_assoc.
    + destruct err; cbn; unfold set_isHandled, emit, throw, modify_world, advanced;
        cbn; by rewrite ?push_nothing, ?Nat.add_0_r, <- ?app_assoc.
  - unfold ret. by rewrite advanced_nothing.
Qed.

(** The first [listNamespaces] on a scope scans the configuration into a
    new array; it caches the array unless the scan throws. *)
Lemma plugin_listNamespaces_trace env (w : World) :
  GrafanaLivePluginScope.listNamespaces env
    {| this := GrafanaLivePluginScope.new; world := w |} =
  (match scan_error (plugin_abort env) (config_panels env) with
   | Some e => Rejected (ThrownError e)
   | None => Resolved (length (arrays w))
   end,
   {| this :=
        match scan_error (plugin_abort env) (config_panels env) with
        | Some _ => GrafanaLivePluginScope.new
        | None => {| GrafanaLivePluginScope.names := Some (length (arrays w)) |}
        end;
      world :=
        {| arrays :=
             arrays w
             ++ [omap (plugin_listing env)
                   (scanned (plugin_abort env) (config_panels env))];
           measurements_built := measurements_built w;
           effects :=
             effects w
             ++ (scanned (plugin_abort env) (config_panels env)
                   ≫= plugin_visit_effects env) |} |}).
Proof.
  unfold GrafanaLivePluginScope.listNamespaces. run.
  rewrite (scan_trace _ _ (fun _ => 0) _ _ _ (plugin_visit_trace env (length (arrays w)))).
  unfold advanced; cbn. rewrite push_new.
  assert (forall l : list (string * PanelPluginMeta),
            measurements_built w + sum_list ((fun _ => 0) <$> l) = measurements_built w)
    as ->.
  { intros l. induction l as [|? ? IH]; cbn; [lia|done]. }
  by destruct (scan_error (plugin_abort env) (config_panels env)).
Qed.



Example graph_panel_is_listed :
  listed (GrafanaLivePluginScope.listNamespaces Examples.env
            {| this := GrafanaLivePluginScope.new; world := empty_world |})
  = Some [{| sv_value := Some "graph";
             sv_label := Some "Graph";
             sv_description := Some "Time series" |}].
Proof. by vm_compute. Qed.

(** ** The stream scope *)

Lemma stream_getChannelSupport_run ns (st : State GrafanaLiveStreamScope.t) :
  GrafanaLiveStreamScope.getChannelSupport ns st =
  (Resolved (LiveMeasurementsSupport (measurements_built (world st))),
   advanced 0 [] 1 [] st).
Proof.
  destruct st as [s [arr k ev]].
  unfold GrafanaLiveStreamScope.getChannelSupport, advanced. run.
  by rewrite push_nothing, Nat.add_1_r, app_nil_r.
Qed.

(** C9. On the stream scope, [getChannelSupport] resolves for every
    namespace with an object, a newly built [LiveMeasurementsSupport]; the
    scope is left as it is, and the namespace plays no part: the call behaves
    the same for any other namespace. *)
Theorem stream_getChannelSupport_default
    (ns : string) (st : State GrafanaLiveStreamScope.t) :
  let r := GrafanaLiveStreamScope.getChannelSupport ns st in
  fst r = Resolved (LiveMeasurementsSupport (measurements_built (world st))) /\
  this (snd r) = this st /\
  forall ns', GrafanaLiveStreamScope.getChannelSupport ns' st = r.
Proof.
  cbn zeta. rewrite stream_getChannelSupport_run. split_and!; try done.
  intros ns'. by rewrite stream_getChannelSupport_run.
Qed.

(** ** All scopes *)

Ltac dispatch :=
  unfold scope_getChannelSupport, on; cbn [this world getChannelSupport
    core_scope datasource_scope plugin_scope stream_scope];
  rewrite ?core_getChannelSupport_run, ?datasource_getChannelSupport_run,
    ?plugin_getChannelSupport_run, ?stream_getChannelSupport_run.

(** C3, as stated, fails: two successive lookups of one namespace on the
    stream scope both resolve, but with two different objects. *)
Lemma getChannelSupport_twice_counterexample :
  let r1 := scope_getChannelSupport Examples.env "telegraf"
              {| this := Stream GrafanaLiveStreamScope.new; world := empty_world |} in
  let r2 := scope_getChannelSupport Examples.env "telegraf" (snd r1) in
  ~ ((is_rejected (fst r1) = true /\ is_rejected (fst r2) = true) \/
     exists s, fst r1 = Resolved s /\ fst r2 = Resolved s).
Proof.
  cbn zeta. intros [[Hrej _] | (s & H1 & H2)].
  - vm_compute in Hrej. discriminate.
  - vm_compute in H1, H2. by simplify_eq.
Qed.

(** C3, amended. For every scope and every namespace, two successive
    [getChannelSupport] calls under the same environment leave the scope as
    it is and
    - on the core scope, on the plugin scope, and on the data source scope
      unless the instance resolves without a [channelSupport] of its own,
      settle alike: both are rejected with the same error or both resolve
      with the same support object;
    - on the stream scope, and on the data source scope when the instance
      resolves without a [channelSupport], both resolve, each with a newly
      built [LiveMeasurementsSupport], hence with two different objects. *)
Theorem getChannelSupport_twice
    (env : Env) (ns : string) (s : AnyScope) (w : World) :
  let r1 := scope_getChannelSupport env ns {| this := s; world := w |} in
  let r2 := scope_getChannelSupport env ns (snd r1) in
  this (snd r1) = s /\
  if builds_default env ns s
  then exists n, fst r1 = Resolved (LiveMeasurementsSupport n) /\
                 fst r2 = Resolved (LiveMeasurementsSupport (S n))
  else fst r2 = fst r1.
Proof.
  destruct s as [c|d|p|t]; cbn zeta.
  - dispatch. cbn. dispatch. done.
  - dispatch. unfold builds_default, datasource_defaults.
    destruct (dataSourceSrv_get env ns) as [ds|e] eqn:Hget; cbn.
    + destruct (ds_channelSupport ds) as [x|] eqn:Hx; cbn.
      * dispatch. by rewrite Hget, Hx.
      * dispatch. rewrite Hget, Hx. cbn. split; [done|].
        eexists; split; [done|]. by rewrite Nat.add_1_r.
    + dispatch. by rewrite Hget.
  - dispatch. cbn. dispatch. done.
  - dispatch. cbn. dispatch. cbn. split; [done|].
    eexists; split; [done|]. by rewrite Nat.add_1_r.
Qed.

(** C8. For every scope, a [getChannelSupport] call that is rejected leaves
    the scope object as it was (the core scope's [features] and
    [namespaces], the [names] cache of the other scopes), changes no array
    and builds no object; any lookup made afterwards, of any namespace,
    settles as it would have without the failed call. *)
Theorem getChannelSupport_failure_preserves_state
    (env : Env) (ns : string) (s : AnyScope) (w : World) (e : Thrown) :
  let r := scope_getChannelSupport env ns {| this := s; world := w |} in
  fst r = Rejected e ->
  this (snd r) = s /\
  arrays (world (snd r)) = arrays w /\
  measurements_built (world (snd r)) = measurements_built w /\
  forall env' ns',
    fst (scope_getChannelSupport env' ns' (snd r))
    = fst (scope_getChannelSupport env' ns' {| this := s; world := w |}).
Proof.
  destruct s as [c|d|p|t]; cbn zeta.
  - dispatch. cbn. intros _. by split_and!.
  - dispatch. destruct (dataSourceSrv_get env ns) as [ds|e'] eqn:Hget.
    + by destruct (ds_channelSupport ds).
    + cbn. intros _. rewrite push_nothing, Nat.add_0_r. split_and!; try done.
      intros env' ns'. dispatch.
      destruct (dataSourceSrv_get env' ns') as [ds'|e'']; [|done].
      by destruct (ds_channelSupport ds').
  - dispatch. cbn. intros _. rewrite push_nothing, Nat.add_0_r. split_and!; try done.
    intros env' ns'. by dispatch.
  - dispatch. done.
Qed.

Lemma getChannelSupport_failure_preserves_state_witness :
  let r := scope_getChannelSupport Examples.env "text"
             {| this := Plugin GrafanaLivePluginScope.new; world := empty_world |} in
  this (snd r) = Plugin GrafanaLivePluginScope.new /\
  arrays (world (snd r)) = arrays empty_world /\
  measurements_built (world (snd r)) = measurements_built empty_world /\
  forall env' ns',
    fst (scope_getChannelSupport env' ns' (snd r))
    = fst (scope_getChannelSupport env' ns'
             {| this := Plugin GrafanaLivePluginScope.new; world := empty_world |}).
Proof.
  apply (getChannelSupport_failure_preserves_state Examples.env "text"
           (Plugin GrafanaLivePluginScope.new) empty_world
           (new_Error "Unknown streaming plugin: text")).
  reflexivity.
Defined.

(** ** Further properties of the data source scope *)

Lemma datasource_abort_none env key ds :
  datasource_abort env (key, ds) = None
  <-> (dss_meta_live ds = true ->
       forall err, dataSourceSrv_get env key = Rejected err ->
                   exists e, err = ThrownError e).
Proof.
  unfold datasource_abort. cbn. destruct (dss_meta_live ds); [|done].
  destruct (dataSourceSrv_get env key) as [api|err]; cbn.
  - split; [|done]. by intros _ _ err.
  - destruct err; cbn; split; try done; intros Hall;
      try (by eexists; intros; simplify_eq);
      by destruct (Hall eq_refl _ eq_refl).
Qed.

(** X1. The first [listNamespaces] of a data source scope resolves exactly
    when every rejection of the resolver for a data source flagged live is
    an ordinary error object.  It then lists, in the order of the
    configuration, one entry for each data source that is flagged live and
    that the resolver resolves, and nothing else; the [value] and
    [description] of an entry are the data source's type (not the key it
    was resolved by), its [label] the display name.  Otherwise (a live data
    source is rejected with [undefined], [null], a primitive or an object
    that is not extensible) the call is rejected with the [TypeError] of the
    [catch] block and caches nothing. *)
Theorem datasource_listNamespaces_entries (env : Env) (w : World) :
  let r := GrafanaLiveDataSourceScope.listNamespaces env
             {| this := GrafanaLiveDataSourceScope.new; world := w |} in
  (resolves (fst r) = true <->
   forall key ds err,
     (key, ds) ∈ config_datasources env ->
     dss_meta_live ds = true ->
     dataSourceSrv_get env key = Rejected err ->
     exists e, err = ThrownError e) /\
  (resolves (fst r) = true ->
   exists l,
     listed r = Some l /\
     l = omap (fun kd : string * DataSourceInstanceSettings =>
                 if dss_meta_live kd.2 && resolves (dataSourceSrv_get env kd.1)
                 then Some {| sv_value := Some (dss_type kd.2);
                              sv_label := Some (dss_name kd.2);
                              sv_description := Some (dss_type kd.2) |}
                 else None) (config_datasources env) /\
     forall x, x ∈ l ->
       exists key ds,
         (key, ds) ∈ config_datasources env /\
         dss_meta_live ds = true /\
         resolves (dataSourceSrv_get env key) = true /\
         sv_value x = Some (dss_type ds) /\
         sv_label x = Some (dss_name ds) /\
         sv_description x = Some (dss_type ds)) /\
  (resolves (fst r) = false ->
   exists e,
     fst r = Rejected (ThrownError e) /\
     err_name e = "TypeError" /\
     GrafanaLiveDataSourceScope.names (this (snd r)) = None).
Proof.
  cbn zeta. rewrite datasource_listNamespaces_trace. cbn [fst snd this].
  destruct (scan_error (datasource_abort env) (config_datasources env))
    as [e|] eqn:Hscan; cbn [resolves].
  - split_and!; try done.
    + split; [done|]. intros Hall.
      apply scan_error_some in Hscan as ([key ds] & Hin & Habort).
      assert (datasource_abort env (key, ds) = None) as Hnone.
      { apply datasource_abort_none. intros Hlive err Herr. eauto. }
      congruence.
    + intros _. exists e. split; [done|]. split; [|done].
      apply scan_error_some in Hscan as ([key ds] & Hin & Habort).
      unfold datasource_abort in Habort. cbn in Habort.
      destruct (dss_meta_live ds); [|done].
      by eapply catch_fails_TypeError.
  - split_and!; try done.
    + split; [|done]. intros _ key ds err Hin Hlive Herr.
      pose proof (proj1 (scan_error_none _ _) Hscan _ Hin) as Hnone.
      by apply (proj1 (datasource_abort_none env key ds) Hnone Hlive).
    + intros _. rewrite (scanned_complete _ _ Hscan).
      eexists. split; [unfold listed; cbn; by rewrite lookup_new|].
      split; [reflexivity|].
      intros x Hx. apply list_elem_of_omap in Hx as ([key ds] & Hin & Hx).
      unfold datasource_listing, datasource_resolves in Hx. cbn in Hx.
      destruct (dss_meta_live ds) eqn:Hlive; [|done].
      destruct (dataSourceSrv_get env key) eqn:Hget; [|done].
      cbn in Hx. simplify_eq. exists key, ds. by rewrite Hget.
Qed.

Lemma datasource_calls_app ev ev' :
  datasource_calls (ev ++ ev') = datasource_calls ev ++ datasource_calls ev'.
Proof. apply omap_app. Qed.

Lemma plugin_calls_app ev ev' :
  plugin_calls (ev ++ ev') = plugin_calls ev ++ plugin_calls ev'.
Proof. apply omap_app. Qed.

Lemma handled_app ev ev' : handled (ev ++ ev') = handled ev ++ handled ev'.
Proof. apply omap_app. Qed.

(** X2. During its first [listNamespaces] a data source scope works through
    the configured data sources in order and stops behind the first one
    flagged live whose rejection it cannot mark handled; it reaches all of
    them when the call resolves.  It asks the resolver once for each data
    source flagged live that it reaches, by its configuration key and in
    configuration order, and never for one that is not flagged live or not
    reached; it never calls the plugin loader; and the errors it marks
    handled are exactly the error objects the resolver rejected with for
    the live data sources it reached, in that order. *)
Theorem datasource_listNamespaces_calls (env : Env) (w : World) :
  let r := GrafanaLiveDataSourceScope.listNamespaces env
             {| this := GrafanaLiveDataSourceScope.new; world := w |} in
  let reached :=
    scanned (datasource_abort env) (config_datasources env) in
  (exists rest, config_datasources env = reached ++ rest) /\
  (resolves (fst r) = true -> reached = config_datasources env) /\
  exists ev,
    effects (world (snd r)) = effects w ++ ev /\
    datasource_calls ev
    = (filter (fun kd => dss_meta_live kd.2 = true) reached).*1 /\
    plugin_calls ev = [] /\
    handled ev
    = omap (fun kd : string * DataSourceInstanceSettings =>
              if dss_meta_live kd.2
              then rejection (dataSourceSrv_get env kd.1) ≫= markable
              else None) reached.
Proof.
  cbn zeta. rewrite datasource_listNamespaces_trace. cbn [fst snd world effects].
  split; [apply scanned_prefix|]. split.
  - destruct (scan_error (datasource_abort env) (config_datasources env)) eqn:Hscan;
      [done|]. intros _. by apply scanned_complete.
  - eexists; split; [done|].
    induction (scanned (datasource_abort env) (config_datasources env))
      as [|[key ds] entries (IH1 & IH2 & IH3)]; [done|].
    rewrite bind_cons, filter_cons.
    rewrite datasource_calls_app, plugin_calls_app, handled_app, IH1, IH2, IH3.
    unfold datasource_visit_effects. cbn [fst snd omap list_omap].
    destruct (dss_meta_live ds); [|by rewrite decide_False].
    rewrite decide_True by done.
    by destruct (dataSourceSrv_get env key) as [?|[]].
Qed.

(** X3. The first [listNamespaces] of a data source scope builds one
    default support for each live data source it reaches (all of them when
    the call resolves, those up to the first rejection it cannot mark
    handled otherwise) that resolves without a channel support of its own,
    and for no other. *)
Theorem datasource_listNamespaces_builds (env : Env) (w : World) :
  let r := GrafanaLiveDataSourceScope.listNamespaces env
             {| this := GrafanaLiveDataSourceScope.new; world := w |} in
  let reached :=
    scanned (datasource_abort env) (config_datasources env) in
  measurements_built (world (snd r))
  = measurements_built w
    + length (filter (fun kd : string * DataSourceInstanceSettings =>
                        dss_meta_live kd.2 && datasource_defaults env kd.1 = true)
                reached).
Proof.
  cbn zeta. rewrite datasource_listNamespaces_trace. cbn [snd world measurements_built].
  f_equal.
  induction (scanned (datasource_abort env) (config_datasources env))
    as [|[key ds] entries IH]; [done|].
  rewrite fmap_cons, filter_cons. cbn [sum_list_with sum_list]. rewrite IH.
  unfold datasource_visit_built. cbn [fst snd].
  destruct (dss_meta_live ds && datasource_defaults env key);
    [by rewrite decide_True | by rewrite decide_False].
Qed.

(** X4. [getChannelSupport] of the data source scope is rejected exactly
    when the resolver rejects, and then with the resolver's own error; when
    the instance has a channel support it resolves with that very object
    and builds nothing; otherwise it resolves with a newly built default
    support.  In every case the resolver is called exactly once. *)
Theorem datasource_getChannelSupport_outcome
    (env : Env) (ns : string) (st : State GrafanaLiveDataSourceScope.t) :
  let r := GrafanaLiveDataSourceScope.getChannelSupport env ns st in
  rejection (fst r) = rejection (dataSourceSrv_get env ns) /\
  (forall ds s, dataSourceSrv_get env ns = Resolved ds ->
     ds_channelSupport ds = Some s ->
     fst r = Resolved s /\
     measurements_built (world (snd r)) = measurements_built (world st)) /\
  (forall ds, dataSourceSrv_get env ns = Resolved ds ->
     ds_channelSupport ds = None ->
     fst r = Resolved (LiveMeasurementsSupport (measurements_built (world st))) /\
     measurements_built (world (snd r)) = S (measurements_built (world st))) /\
  effects (world (snd r)) = effects (world st) ++ [CallDataSourceGet ns].
Proof.
  cbn zeta. rewrite datasource_getChannelSupport_run.
  destruct (dataSourceSrv_get env ns) as [ds|e]; [|by cbn].
  destruct (ds_channelSupport ds) as [s|] eqn:Hcs; cbn;
    rewrite ?Nat.add_0_r, ?Nat.add_1_r;
    split_and!; try done; intros; by simplify_eq.
Qed.

Lemma datasource_getChannelSupport_outcome_witness :
  (fst (GrafanaLiveDataSourceScope.getChannelSupport MoreExamples.env "Telegraf"
          {| this := GrafanaLiveDataSourceScope.new; world := empty_world |})
   = Resolved (ExternalSupport 9) /\
   measurements_built
     (world (snd (GrafanaLiveDataSourceScope.getChannelSupport MoreExamples.env
                    "Telegraf"
                    {| this := GrafanaLiveDataSourceScope.new;
                       world := empty_world |})))
   = 0) /\
  (fst (GrafanaLiveDataSourceScope.getChannelSupport MoreExamples.env "Prometheus"
          {| this := GrafanaLiveDataSourceScope.new; world := empty_world |})
   = Resolved (LiveMeasurementsSupport 0) /\
   measurements_built
     (world (snd (GrafanaLiveDataSourceScope.getChannelSupport MoreExamples.env
                    "Prometheus"
                    {| this := GrafanaLiveDataSourceScope.new;
                       world := empty_world |})))
   = 1).
Proof.
  split.
  - apply (proj1 (proj2 (datasource_getChannelSupport_outcome MoreExamples.env
                           "Telegraf"
                           {| this := GrafanaLiveDataSourceScope.new;
                              world := empty_world |}))
             (mkDataSourceApi (Some (ExternalSupport 9))));
      reflexivity.
  - apply (proj1 (proj2 (proj2 (datasource_getChannelSupport_outcome
                                  MoreExamples.env "Prometheus"
                                  {| this := GrafanaLiveDataSourceScope.new;
                                     world := empty_world |})))
             (mkDataSourceApi None));
      reflexivity.
Defined.

(** ** Further properties of the plugin scope *)

(** X5. [getChannelSupport] of the plugin scope resolves exactly when the
    loader yields a plugin that declares a channel support, and then with
    that very object; a rejection of the loader is passed on unchanged; the
    scope is left as it is, nothing is built, and the loader is called
    exactly once. *)
Theorem plugin_getChannelSupport_outcome
    (env : Env) (ns : string) (st : State GrafanaLivePluginScope.t) :
  let r := GrafanaLivePluginScope.getChannelSupport env ns st in
  resolves (fst r) = plugin_streams env ns /\
  (forall plugin s, loadPlugin env ns = Resolved (Some plugin) ->
     plugin_channelSupport plugin = Some s -> fst r = Resolved s) /\
  (forall e, loadPlugin env ns = Rejected e -> fst r = Rejected e) /\
  this (snd r) = this st /\
  measurements_built (world (snd r)) = measurements_built (world st) /\
  effects (world (snd r)) = effects (world st) ++ [CallLoadPlugin ns].
Proof.
  cbn zeta. rewrite plugin_getChannelSupport_run. unfold plugin_streams.
  destruct (loadPlugin env ns) as [[plugin|]|e]; cbn; rewrite ?Nat.add_0_r.
  - destruct (plugin_channelSupport plugin) as [s|] eqn:Hcs; cbn;
      split_and!; try done; intros; by simplify_eq.
  - by split_and!.
  - split_and!; try done. intros; by simplify_eq.
Qed.

Lemma plugin_getChannelSupport_outcome_witness :
  fst (GrafanaLivePluginScope.getChannelSupport MoreExamples.env "graph"
         {| this := GrafanaLivePluginScope.new; world := empty_world |})
  = Resolved (ExternalSupport 7) /\
  fst (GrafanaLivePluginScope.getChannelSupport MoreExamples.env "broken"
         {| this := GrafanaLivePluginScope.new; world := empty_world |})
  = Rejected MoreExamples.load_error.
Proof.
  split.
  - apply (proj1 (proj2 (plugin_getChannelSupport_outcome MoreExamples.env "graph"
                           {| this := GrafanaLivePluginScope.new;
                              world := empty_world |}))
             (mkGrafanaPlugin (Some (ExternalSupport 7))));
      reflexivity.
  - apply (proj1 (proj2 (proj2 (plugin_getChannelSupport_outcome MoreExamples.env
                                  "broken"
                                  {| this := GrafanaLivePluginScope.new;
                                     world := empty_world |}))));
      reflexivity.
Defined.


(** X6. On a new plugin scope, when the first [listNamespaces] resolves, it
    resolves with a newly allocated array that holds the list it scanned and
    that it has stored in [names]; and a second call, under any
    configuration and loader whatsoever, resolves with that same array and
    changes nothing: the loader is not called again and the list is not
    rebuilt. *)
Theorem plugin_listNamespaces_cached
    (env env' : Env) (w : World) (a : nat) :
  let r := GrafanaLivePluginScope.listNamespaces env
             {| this := GrafanaLivePluginScope.new; world := w |} in
  fst r = Resolved a ->
  a = length (arrays w) /\
  GrafanaLivePluginScope.names (this (snd r)) = Some a /\
  listed r = Some (omap (plugin_listing env) (config_panels env)) /\
  GrafanaLivePluginScope.listNamespaces env' (snd r) = (Resolved a, snd r).
Proof.
  cbn zeta. rewrite plugin_listNamespaces_trace. unfold listed.
  destruct (scan_error (plugin_abort env) (config_panels env))
    as [e|] eqn:Hscan; [done|].
  cbn [fst snd this world arrays]. intros [= <-].
  rewrite (scanned_complete _ _ Hscan), lookup_new. by split_and!.
Qed.

Lemma plugin_listNamespaces_cached_witness :
  0 = length (arrays empty_world) /\
  GrafanaLivePluginScope.names
    (this (snd (GrafanaLivePluginScope.listNamespaces Examples.env
                  {| this := GrafanaLivePluginScope.new; world := empty_world |})))
  = Some 0 /\
  listed (GrafanaLivePluginScope.listNamespaces Examples.env
            {| this := GrafanaLivePluginScope.new; world := empty_world |})
  = Some (omap (plugin_listing Examples.env) (config_panels Examples.env)) /\
  GrafanaLivePluginScope.listNamespaces Examples.empty_env
    (snd (GrafanaLivePluginScope.listNamespaces Examples.env
            {| this := GrafanaLivePluginScope.new; world := empty_world |}))
  = (Resolved 0,
     snd (GrafanaLivePluginScope.listNamespaces Examples.env
            {| this := GrafanaLivePluginScope.new; world := empty_world |})).
Proof.
  apply (plugin_listNamespaces_cached Examples.env Examples.empty_env empty_world 0).
  reflexivity.
Defined.

(** X7. During its first [listNamespaces] a plugin scope works through the
    configured panels in order and stops behind the first panel flagged
    live whose failed lookup it cannot mark handled (a loader rejection
    that is not an ordinary error object); it reaches all of them when the
    call resolves.  It asks the loader once for each panel flagged live
    that it reaches, by its configuration key and in configuration order,
    and never for a panel that is not flagged live or not reached; it never
    calls the data source resolver and builds no default support; and the
    errors it marks handled are exactly the error objects the lookups of
    the live panels it reached were rejected with, in that order. *)
Theorem plugin_listNamespaces_calls (env : Env) (w : World) :
  let st := {| this := GrafanaLivePluginScope.new; world := w |} in
  let r := GrafanaLivePluginScope.listNamespaces env st in
  let reached := scanned (plugin_abort env) (config_panels env) in
  (exists rest, config_panels env = reached ++ rest) /\
  (resolves (fst r) = true -> reached = config_panels env) /\
  measurements_built (world (snd r)) = measurements_built w /\
  exists ev,
    effects (world (snd r)) = effects w ++ ev /\
    plugin_calls ev
    = (filter (fun kp => panel_live kp.2 = true) reached).*1 /\
    datasource_calls ev = [] /\
    handled ev
    = omap (fun kp : string * PanelPluginMeta =>
              if panel_live kp.2
              then rejection (fst (GrafanaLivePluginScope.getChannelSupport env kp.1 st))
                     ≫= markable
              else None) reached.
Proof.
  cbn zeta. rewrite plugin_listNamespaces_trace. cbn [fst snd world effects].
  split; [apply scanned_prefix|]. split.
  { destruct (scan_error (plugin_abort env) (config_panels env)) eqn:Hscan;
      [done|]. intros _. by apply scanned_complete. }
  split; [done|]. eexists; split; [done|].
  induction (scanned (plugin_abort env) (config_panels env))
    as [|[key panel] entries (IH1 & IH2 & IH3)]; [done|].
  rewrite bind_cons, filter_cons.
  rewrite datasource_calls_app, plugin_calls_app, handled_app, IH1, IH2, IH3.
  unfold plugin_visit_effects. cbn [fst snd omap list_omap].
  rewrite plugin_getChannelSupport_run. cbn [fst].
  fold (plugin_answer env key).
  destruct (panel_live panel); [|by rewrite decide_False].
  rewrite decide_True by done.
  by destruct (plugin_answer env key) as [?|[]].
Qed.

(** X8. Every namespace the plugin scope lists resolves: for each entry of
    the first [listNamespaces], a [getChannelSupport] of the entry's
    [value], made afterwards under the same environment, resolves. *)
Theorem plugin_listed_namespaces_resolve (env : Env) (w : World)
    (l : list SelectableValue) (x : SelectableValue) :
  let r := GrafanaLivePluginScope.listNamespaces env
             {| this := GrafanaLivePluginScope.new; world := w |} in
  listed r = Some l ->
  x ∈ l ->
  exists key, sv_value x = Some key /\
    resolves (fst (GrafanaLivePluginScope.getChannelSupport env key (snd r))) = true.
Proof.
  cbn zeta. rewrite plugin_listNamespaces_trace. unfold listed.
  destruct (scan_error (plugin_abort env) (config_panels env)) as [e|] eqn:Hscan;
    [done|].
  cbn [fst snd world arrays]. rewrite lookup_new, (scanned_complete _ _ Hscan).
  intros [= <-] Hx.
  apply list_elem_of_omap in Hx as ([key panel] & Hin & Hx).
  unfold plugin_listing in Hx. cbn in Hx.
  destruct (panel_live panel); [|done].
  destruct (plugin_streams env key) eqn:Hs; [|done].
  cbn in Hx. simplify_eq. exists key. split; [done|].
  rewrite plugin_getChannelSupport_run. cbn [fst].
  unfold plugin_streams in Hs.
  destruct (loadPlugin env key) as [[plugin|]|e]; try done.
  by destruct (plugin_channelSupport plugin).
Qed.

Lemma plugin_listed_namespaces_resolve_witness :
  exists key,
    sv_value {| sv_value := Some "graph"; sv_label := Some "Graph";
                sv_description := Some "Time series" |} = Some key /\
    resolves (fst (GrafanaLivePluginScope.getChannelSupport Examples.env key
                     (snd (GrafanaLivePluginScope.listNamespaces Examples.env
                             {| this := GrafanaLivePluginScope.new;
                                world := empty_world |})))) = true.
Proof.
  apply (plugin_listed_namespaces_resolve Examples.env empty_world
           [{| sv_value := Some "graph"; sv_label := Some "Graph";
               sv_description := Some "Time series" |}]).
  - reflexivity.
  - by apply (bool_decide_unpack _).
Defined.

(** ** The stream scope's list *)

(** X9. [listNamespaces] of the stream scope always resolves and never
    calls a collaborator.  On a scope whose cache is unset it allocates a
    new, empty array and caches it; on a scope whose cache is set it
    resolves with the cached array and changes nothing.  In both cases a
    further call resolves with the same array and changes nothing. *)
Theorem stream_listNamespaces_empty_cached (st : State GrafanaLiveStreamScope.t) :
  let r := GrafanaLiveStreamScope.listNamespaces st in
  exists a,
    fst r = Resolved a /\
    GrafanaLiveStreamScope.names (this (snd r)) = Some a /\
    effects (world (snd r)) = effects (world st) /\
    GrafanaLiveStreamScope.listNamespaces (snd r) = (Resolved a, snd r) /\
    match GrafanaLiveStreamScope.names (this st) with
    | None => a = length (arrays (world st)) /\ listed r = Some []
    | Some cached => a = cached /\ snd r = st
    end.
Proof.
  destruct st as [[[a|]] [arr k ev]]; cbn zeta.
  - exists a. by split_and!.
  - exists (length arr). unfold GrafanaLiveStreamScope.listNamespaces, listed. run.
    split_and!; try done. by rewrite lookup_new.
Qed.

(** ** Further properties of the core scope *)

(** X10. The list [listNamespaces] of the core scope resolves with is the
    scope's own array, not a copy: features registered after the call
    appear, in order, at the end of the array the call returned. *)
Theorem core_listNamespaces_is_live
    (fs : list CoreGrafanaLiveFeature) (st : State GrafanaLiveCoreScope.t)
    (old : list SelectableValue) :
  let r := GrafanaLiveCoreScope.listNamespaces st in
  listed r = Some old ->
  exists a,
    fst r = Resolved a /\
    arrays (world (snd (register_all fs (snd r)))) !! a
    = Some (old ++ ((fun f => {| sv_value := Some (feature_name f);
                                 sv_label := Some (feature_name f);
                                 sv_description := Some (feature_description f) |})
                      <$> fs)).
Proof.
  cbn zeta. unfold listed, GrafanaLiveCoreScope.listNamespaces, get_this.
  cbn [fst snd]. intros Hold. eexists; split; [done|].
  rewrite register_all_run. cbn [snd world advanced arrays this].
  rewrite list_lookup_alter_eq, Hold. done.
Qed.

Lemma core_listNamespaces_is_live_witness :
  exists a,
    fst (GrafanaLiveCoreScope.listNamespaces
           (snd (register_all [Examples.alpha] Examples.fresh_core)))
    = Resolved a /\
    arrays (world (snd (register_all [Examples.beta]
                          (snd (GrafanaLiveCoreScope.listNamespaces
                                  (snd (register_all [Examples.alpha]
                                          Examples.fresh_core))))))) !! a
    = Some ([{| sv_value := Some "alpha"; sv_label := Some "alpha";
                sv_description := Some "desc-A" |}]
            ++ [{| sv_value := Some "beta"; sv_label := Some "beta";
                   sv_description := Some "desc-B" |}]).
Proof.
  apply (core_listNamespaces_is_live [Examples.beta]
           (snd (register_all [Examples.alpha] Examples.fresh_core))
           [{| sv_value := Some "alpha"; sv_label := Some "alpha";
               sv_description := Some "desc-A" |}]).
  reflexivity.
Defined.

(** X11. On a core scope built by registrations, a namespace is listed by
    [listNamespaces] exactly when [getChannelSupport] resolves for it. *)
Theorem core_listed_iff_resolves
    (fs : list CoreGrafanaLiveFeature) (w : World) (n : string) :
  let st := snd (register_all fs (GrafanaLiveCoreScope.new w)) in
  (exists l x, listed (GrafanaLiveCoreScope.listNamespaces st) = Some l /\
               x ∈ l /\ sv_value x = Some n)
  <-> resolves (fst (GrafanaLiveCoreScope.getChannelSupport n st)) = true.
Proof.
  cbn zeta. rewrite register_all_run, core_getChannelSupport_run.
  unfold listed, GrafanaLiveCoreScope.listNamespaces, get_this. cbn.
  rewrite push_new, lookup_new.
  assert (is_Some (foldl insert_feature ∅ fs !! n) <-> n ∈ feature_name <$> fs)
    as Hin.
  { rewrite <- elem_of_dom, dom_registered. set_solver. }
  split.
  - intros (l & x & [= <-] & Hx & Hn).
    apply list_elem_of_fmap in Hx as (f & -> & Hf). cbn in Hn. simplify_eq.
    destruct Hin as [_ [v ->]]; [|done].
    apply list_elem_of_fmap. eauto.
  - intros Hres.
    assert (n ∈ feature_name <$> fs) as Hn.
    { apply Hin. destruct (_ !! n); [eauto|done]. }
    apply list_elem_of_fmap in Hn as (f & -> & Hf).
    exists (feature_entry <$> fs), (feature_entry f). split; [done|].
    split; [|done]. apply list_elem_of_fmap. eauto.
Qed.

(** X12. Registering a feature does not change the answer of
    [getChannelSupport] for any other name, and changes no array but the
    scope's own. *)
Theorem core_register_other_name
    (f : CoreGrafanaLiveFeature) (n : string) (st : State GrafanaLiveCoreScope.t) :
  n <> feature_name f ->
  let st' := snd (GrafanaLiveCoreScope.register f st) in
  fst (GrafanaLiveCoreScope.getChannelSupport n st')
  = fst (GrafanaLiveCoreScope.getChannelSupport n st) /\
  forall i, i <> GrafanaLiveCoreScope.namespaces (this st) ->
            arrays (world st') !! i = arrays (world st) !! i.
Proof.
  intros Hn. cbn zeta. rewrite register_run, !core_getChannelSupport_run.
  cbn [fst snd this world advanced arrays GrafanaLiveCoreScope.features].
  unfold insert_feature. rewrite lookup_insert_ne by done. split; [done|].
  intros i Hi. by rewrite list_lookup_alter_ne.
Qed.

Lemma core_register_other_name_witness :
  fst (GrafanaLiveCoreScope.getChannelSupport "alpha"
         (snd (GrafanaLiveCoreScope.register Examples.beta
                 (snd (register_all [Examples.alpha] Examples.fresh_core)))))
  = fst (GrafanaLiveCoreScope.getChannelSupport "alpha"
           (snd (register_all [Examples.alpha] Examples.fresh_core))) /\
  forall i,
    i <> GrafanaLiveCoreScope.namespaces
           (this (snd (register_all [Examples.alpha] Examples.fresh_core))) ->
    arrays (world (snd (GrafanaLiveCoreScope.register Examples.beta
                          (snd (register_all [Examples.alpha] Examples.fresh_core)))))
      !! i
    = arrays (world (snd (register_all [Examples.alpha] Examples.fresh_core))) !! i.
Proof.
  apply (core_register_other_name Examples.beta "alpha"
           (snd (register_all [Examples.alpha] Examples.fresh_core))).
  discriminate.
Defined.

(** ** Further properties of all scopes *)

Ltac dispatch_list :=
  unfold scope_listNamespaces, on; cbn [this world listNamespaces
    core_scope datasource_scope plugin_scope stream_scope].


(** X14. A lookup does not change what the scope lists: on every scope,
    [listNamespaces] called after a [getChannelSupport] (resolved or
    rejected) resolves with the same array, holding the same entries, as
    it would have without the lookup. *)
Theorem getChannelSupport_then_listNamespaces
    (env env' : Env) (ns : string) (s : AnyScope) (w : World) :
  let st := {| this := s; world := w |} in
  let r := scope_listNamespaces env' (snd (scope_getChannelSupport env ns st)) in
  fst r = fst (scope_listNamespaces env' st) /\
  listed r = listed (scope_listNamespaces env' st).
Proof.
  destruct s as [c|[[a|]]|[[a|]]|[[a|]]]; cbn zeta; dispatch; cbn.
  - by dispatch_list.
  - destruct (dataSourceSrv_get env ns) as [ds|e]; [destruct (ds_channelSupport ds)|];
      dispatch_list; cbn; unfold listed; cbn; by rewrite push_nothing.
  - change (GrafanaLiveDataSourceScope.mk None) with GrafanaLiveDataSourceScope.new.
    destruct (dataSourceSrv_get env ns) as [ds|e]; [destruct (ds_channelSupport ds)|];
      dispatch_list; cbn [fst snd this world advanced];
      change (GrafanaLiveDataSourceScope.mk None) with GrafanaLiveDataSourceScope.new;
      rewrite !datasource_listNamespaces_trace; unfold listed;
      destruct (scan_error (datasource_abort env') (config_datasources env'));
      cbn; by rewrite ?push_nothing, ?lookup_new.
  - dispatch_list; cbn; unfold listed; cbn; by rewrite push_nothing.
  - change (GrafanaLivePluginScope.mk None) with GrafanaLivePluginScope.new.
    dispatch_list; cbn [fst snd this world advanced];
      change (GrafanaLivePluginScope.mk None) with GrafanaLivePluginScope.new;
      rewrite !plugin_listNamespaces_trace; unfold listed;
      destruct (scan_error (plugin_abort env') (config_panels env'));
      cbn; by rewrite ?push_nothing, ?lookup_new.
  - dispatch_list; cbn; unfold listed; cbn; by rewrite push_nothing.
  - dispatch_list. unfold GrafanaLiveStreamScope.listNamespaces, listed. run.
    by rewrite push_nothing, !lookup_new.
Qed.

(** * Bar chart utilities and time series suggestions *)

(** ** [shortenValue] *)

Lemma length_substring_from_start (s : string) (n : nat) :
  String.length (String.substring 0 n s) = n `min` String.length s.
Proof.
  revert n. induction s as [|c s IH]; intros [|n]; cbn; try done.
  by rewrite IH.
Qed.

Lemma substring_from_start_append (s t : string) (n : nat) :
  n <= String.length s ->
  String.substring 0 n (String.substring 0 n s +:+ t) = String.substring 0 n s.
Proof.
  revert n. induction s as [|c s IH]; intros [|n] Hn; simpl in *.
  - by destruct t.
  - lia.
  - by destruct t.
  - f_equal. apply IH. lia.
Qed.

Lemma length_append_dots (s : string) :
  String.length (s +:+ "...") = String.length s + 3.
Proof. induction s as [|c s IH]; simpl; [done|]. by f_equal. Qed.

Lemma shortenValue_long (value : string) (length : Z) :
  (length < Z.of_nat (String.length value))%Z ->
  shortenValue value length
  = String.substring 0 (Z.to_nat length) value +:+ "...".
Proof.
  intros Hlong. unfold shortenValue, substring_from_start.
  by rewrite (proj2 (Z.gtb_lt _ _) Hlong).
Qed.

Lemma shortenValue_short (value : string) (length : Z) :
  (Z.of_nat (String.length value) <= length)%Z ->
  shortenValue value length = value.
Proof.
  intros Hshort. unfold shortenValue.
  destruct (Z.gtb_spec (Z.of_nat (String.length value)) length); [lia|done].
Qed.

(** X15. [shortenValue] leaves a value of at most [length] characters as it
    is; a longer value becomes its first [length] characters (none, when
    [length] is negative) followed by the three dots ["..."].  The result
    of shortening has therefore [length] (or zero) plus three characters: it
    can be up to three characters longer than [length], and longer than the
    value itself. *)
Theorem shortenValue_length (value : string) (length : Z) :
  (Z.of_nat (String.length value) <= length)%Z /\ shortenValue value length = value
  \/
  (length < Z.of_nat (String.length value))%Z /\
  shortenValue value length
  = String.substring 0 (Z.to_nat length) value +:+ "..." /\
  String.length (String.substring 0 (Z.to_nat length) value) = Z.to_nat length /\
  String.prefix (String.substring 0 (Z.to_nat length) value) value = true /\
  String.length (shortenValue value length) = Z.to_nat length + 3.
Proof.
  destruct (Z.le_gt_cases (Z.of_nat (String.length value)) length) as [Hs|Hl].
  - left. split; [done|]. by apply shortenValue_short.
  - right. split; [done|]. rewrite shortenValue_long by done.
    rewrite length_append_dots, length_substring_from_start.
    split_and!; [done|lia| |lia].
    apply String.prefix_correct. rewrite length_substring_from_start.
    replace (Z.to_nat length `min` String.length value) with (Z.to_nat length) by lia.
    done.
Qed.

(** X16. [shortenValue] is idempotent: shortening a shortened value to the
    same length changes nothing, although the shortened value is itself
    longer than [length]. *)
Theorem shortenValue_idempotent (value : string) (length : Z) :
  shortenValue (shortenValue value length) length = shortenValue value length.
Proof.
  destruct (Z.le_gt_cases (Z.of_nat (String.length value)) length) as [Hs|Hl].
  - rewrite (shortenValue_short value) by done. by apply shortenValue_short.
  - rewrite (shortenValue_long value) by done.
    rewrite shortenValue_long.
    + f_equal. apply substring_from_start_append. lia.
    + rewrite length_append_dots, length_substring_from_start. lia.
Qed.

(** ** [TimeSeriesSuggestionsSupplier.getSuggestionsForData] *)

Ltac suggestion_cases ds :=
  unfold getSuggestionsForData, quotient_below, maxBarsCount;
  destruct (hasTimeField ds), (hasNumberField ds);
  destruct (Nat.ltb_spec (rowCountTotal ds) 2);
  destruct (Nat.ltb_spec (rowCountMax ds) 200);
  destruct (Nat.ltb_spec (rowCountMax ds) 100);
  destruct (Nat.eqb_spec (numberFieldCount ds) 1);
  destruct (numberFieldCount ds) as [|fields] eqn:Hfields;
  try destruct (Nat.ltb_spec (rowCountTotal ds) (100 * S fields));
  cbn [negb orb andb app].

(** X17. The supplier suggests nothing exactly when the data has no time
    field, or no number field, or fewer than two rows in total; otherwise
    its first suggestion is the plain line chart. *)
Theorem getSuggestionsForData_none_or_line (ds : DataSummary) :
  (getSuggestionsForData ds = [] /\
   (hasTimeField ds = false \/ hasNumberField ds = false \/ rowCountTotal ds < 2))
  \/
  ((exists rest, getSuggestionsForData ds = mkSuggestion LineChart None :: rest) /\
   hasTimeField ds = true /\ hasNumberField ds = true /\ 2 <= rowCountTotal ds).
Proof.
  suggestion_cases ds;
    first [ left; split; [reflexivity|]; solve [auto]
          | right; split; [eexists; reflexivity|]; by split_and! ].
Qed.

(** X18. The supplier never suggests the same visualization twice, and
    makes at most six suggestions. *)
Theorem getSuggestionsForData_distinct (ds : DataSummary) :
  NoDup (suggestion_name <$> getSuggestionsForData ds) /\
  length (getSuggestionsForData ds) <= 6.
Proof.
  suggestion_cases ds;
    (split; [by apply (bool_decide_unpack _) | cbn; lia]).
Qed.

(** X19. A suggestion is drawn as bars only when there are fewer than a
    hundred bars per series: for a single number field, when the longest
    frame has fewer than 100 rows; otherwise, when the rows in total are
    fewer than 100 times the number fields.  Every bar suggestion is fully
    opaque, with line width 1 and the hue gradient. *)
Theorem getSuggestionsForData_bars (ds : DataSummary) (s : Suggestion)
    (custom : GraphFieldConfig) :
  s ∈ getSuggestionsForData ds ->
  suggestion_custom s = Some custom ->
  drawStyle custom = Some DrawBars ->
  (numberFieldCount ds = 1 /\ rowCountMax ds < 100 \/
   numberFieldCount ds <> 1 /\
   rowCountTotal ds < 100 * numberFieldCount ds) /\
  fillOpacity custom = Some 100%Z /\
  lineWidth custom = Some 1%Z /\
  gradientMode custom = Some GradientHue.
Proof.
  intros Hs Hcustom Hbars. revert Hs.
  suggestion_cases ds; intros Hs;
    repeat (apply elem_of_cons in Hs as [-> | Hs]);
    try (by apply elem_of_nil in Hs);
    cbn in Hcustom; simplify_eq; cbn in Hbars; try discriminate;
    (split; [|done]); first [left; split; [done|lia] | right; split; [done|lia]].
Qed.

Lemma getSuggestionsForData_bars_witness :
  (numberFieldCount BarExamples.bars = 1 /\ rowCountMax BarExamples.bars < 100 \/
   numberFieldCount BarExamples.bars <> 1 /\
   rowCountTotal BarExamples.bars < 100 * numberFieldCount BarExamples.bars) /\
  fillOpacity (bars_config None) = Some 100%Z /\
  lineWidth (bars_config None) = Some 1%Z /\
  gradientMode (bars_config None) = Some GradientHue.
Proof.
  apply (getSuggestionsForData_bars BarExamples.bars
           (mkSuggestion BarChart (Some (bars_config None))) (bars_config None)).
  - vm_compute. repeat constructor.
  - reflexivity.
  - reflexivity.
Defined.

(** X20. With a single number field the supplier suggests the area chart
    and nothing stacked; otherwise, whenever it suggests anything, it
    suggests the stacked area chart in its normal and its percent form.
    Every stacked suggestion stacks in group "A". *)
Theorem getSuggestionsForData_stacking (ds : DataSummary) :
  let names := suggestion_name <$> getSuggestionsForData ds in
  (forall s custom stack,
     s ∈ getSuggestionsForData ds ->
     suggestion_custom s = Some custom ->
     stacking custom = Some stack ->
     numberFieldCount ds <> 1 /\ stacking_group stack = "A") /\
  (getSuggestionsForData ds <> [] ->
   if decide (numberFieldCount ds = 1)
   then AreaChart ∈ names
   else AreaChartStacked ∈ names /\ AreaChartStackedPercent ∈ names).
Proof.
  cbn zeta. split.
  - intros s custom stack Hs Hcustom Hstack. revert Hs.
    suggestion_cases ds; intros Hs;
      repeat (apply elem_of_cons in Hs as [-> | Hs]);
      try (by apply elem_of_nil in Hs);
      cbn in Hcustom; simplify_eq; cbn in Hstack; simplify_eq; by split.
  - suggestion_cases ds; intros Hne; try done;
      case_decide; try done; try lia;
      try split; by apply (bool_decide_unpack _).
Qed.

(** X21. The smooth line chart is suggested exactly when something is
    suggested at all and the longest frame has fewer than 200 rows. *)
Theorem getSuggestionsForData_smooth (ds : DataSummary) :
  LineChartSmooth ∈ suggestion_name <$> getSuggestionsForData ds
  <-> getSuggestionsForData ds <> [] /\ rowCountMax ds < 200.
Proof.
  suggestion_cases ds;
    (split;
     [ intros Hin; first [ by apply elem_of_nil in Hin
                         | split; [done|lia]
                         | exfalso; revert Hin; by apply (bool_decide_unpack _) ]
     | intros [Hne Hlt]; first [ done | lia | by apply (bool_decide_unpack _) ] ]).
Qed.

(** ** [preparePlotFrame] *)

Lemma find_first {A} (p : A -> bool) (l : list A) (x : A) :
  List.find p l = Some x ->
  exists before after,
    l = before ++ x :: after /\ Forall (fun y => p y = false) before /\ p x = true.
Proof.
  induction l as [|y l IH]; [done|]. cbn. destruct (p y) eqn:Hy.
  - intros [= ->]. by exists [], l.
  - intros Hfind. destruct (IH Hfind) as (before & after & -> & Hbefore & Hx).
    exists (y :: before), after. split; [done|]. split; [|done].
    by constructor.
Qed.

Lemma filter_number_fields (l : list Field) :
  List.filter (fun f => bool_decide (field_type f = FieldNumber)) l
  = filter (fun f => field_type f = FieldNumber) l.
Proof.
  induction l as [|f l IH]; [done|].
  rewrite filter_cons. cbn [List.filter]. rewrite IH.
  case_bool_decide; [by rewrite decide_True | by rewrite decide_False].
Qed.

(** With a string field in the first frame [preparePlotFrame] returns. *)
Lemma preparePlotFrame_with_string (firstFrame : DataFrame) (others : list DataFrame) :
  has_field_of_type FieldString firstFrame = true ->
  exists firstString before after,
    preparePlotFrame (firstFrame :: others)
    = Returns (firstString
                 :: filter (fun f => field_type f = FieldNumber)
                      (frame_fields firstFrame)) /\
    frame_fields firstFrame = before ++ firstString :: after /\
    Forall (fun f => field_type f <> FieldString) before /\
    field_type firstString = FieldString.
Proof.
  unfold preparePlotFrame, has_field_of_type. intros Hex.
  destruct (List.find _ (frame_fields firstFrame)) as [firstString|] eqn:Hfind.
  - apply find_first in Hfind as (before & after & Hsplit & Hbefore & Htype).
    exists firstString, before, after. rewrite filter_number_fields.
    split; [done|]. split; [done|]. split.
    + eapply Forall_impl; [exact Hbefore|]. intros f Hf.
      by apply bool_decide_eq_false in Hf.
    + by apply bool_decide_eq_true in Htype.
  - apply existsb_exists in Hex as (f & Hin & Hf).
    by rewrite (find_none _ _ Hfind f Hin) in Hf.
Qed.

(** X22. [preparePlotFrame] reads the first frame only.  It throws
    ["No string field in DF"] exactly when that frame has no string field;
    otherwise it adds, in this order, the first string field of the frame
    and then every number field of the frame in frame order, and nothing
    else: later string fields and fields of other types are dropped. *)
Theorem preparePlotFrame_fields (firstFrame : DataFrame) (others : list DataFrame) :
  (has_field_of_type FieldString firstFrame = false /\
   preparePlotFrame (firstFrame :: others)
   = Throws {| err_name := "Error"; err_message := "No string field in DF" |})
  \/
  (has_field_of_type FieldString firstFrame = true /\
   exists firstString before after numbers,
     preparePlotFrame (firstFrame :: others) = Returns (firstString :: numbers) /\
     frame_fields firstFrame = before ++ firstString :: after /\
     Forall (fun f => field_type f <> FieldString) before /\
     field_type firstString = FieldString /\
     numbers = filter (fun f => field_type f = FieldNumber) (frame_fields firstFrame) /\
     Forall (fun f => field_type f = FieldNumber) numbers).
Proof.
  destruct (has_field_of_type FieldString firstFrame) eqn:Hs.
  - right. split; [done|].
    destruct (preparePlotFrame_with_string firstFrame others Hs)
      as (firstString & before & after & Hrun & Hsplit & Hbefore & Htype).
    exists firstString, before, after. eexists. split_and!; try done.
    apply Forall_forall. intros f Hf. by apply list_elem_of_filter in Hf as [? _].
  - left. split; [done|]. unfold preparePlotFrame, has_field_of_type in *.
    destruct (List.find _ (frame_fields firstFrame)) as [f|] eqn:Hfind; [|done].
    apply find_some in Hfind as [Hin Hf].
    assert (existsb (fun f => bool_decide (field_type f = FieldString))
              (frame_fields firstFrame) = true) as Hex
      by (apply existsb_exists; eauto).
    congruence.
Qed.

(** ** [prepareGraphableFrames] *)

Lemma graphable_value_graphable v : graphable (graphable_value v).
Proof. destruct v as [| |[]| | |]; cbn; unfold graphable; cbn; auto. Qed.

Lemma graphable_value_keeps v : graphable v -> graphable_value v = v.
Proof. destruct v as [| |[]| | |]; intros [?|?]; by cbn in *. Qed.

Lemma graphable_value_idempotent v :
  graphable_value (graphable_value v) = graphable_value v.
Proof. apply graphable_value_keeps, graphable_value_graphable. Qed.

Lemma graphable_copy_again stacking n field :
  let copy := graphable_copy stacking (with_seriesIndex n field) in
  graphable_copy stacking (with_seriesIndex n copy) = copy.
Proof.
  cbn zeta. unfold graphable_copy, with_seriesIndex. cbn. f_equal.
  - f_equal. by case_decide.
  - rewrite <- list_fmap_compose. apply list_fmap_ext.
    intros ? v _. apply graphable_value_idempotent.
  - by case_decide.
Qed.

(** The inner loop, field by field. *)
Lemma graphable_fields_spec stacking fields : forall next,
  exists copies fields',
    graphable_fields stacking fields next
    = (copies, fields',
       next + length (filter (fun f => field_type f = FieldNumber) fields)) /\
    Forall2 (fun f c => exists n, graphable_of stacking n f c) fields copies /\
    Forall2 (fun f f' => f' = f \/ exists n, f' = with_seriesIndex n f) fields fields' /\
    series_indices copies
    = Some <$> seq next (length (filter (fun f => field_type f = FieldNumber) fields)) /\
    series_indices fields' = series_indices copies.
Proof.
  induction fields as [|f fields IH]; intros next.
  - exists [], []. cbn. rewrite Nat.add_0_r. by split_and!.
  - cbn [graphable_fields]. rewrite filter_cons. unfold series_indices in *.
    destruct (decide (field_type f = FieldNumber)) as [Hnum|Hnum].
    + destruct (IH (S next)) as (copies & fields' & -> & Hrel & Hmut & Hidx & Hsame).
      eexists _, _. split; [cbn; f_equal; lia|]. split_and!.
      * constructor; [|done].
        exists next. unfold graphable_of. by rewrite decide_True.
      * constructor; [|done]. right. by exists next.
      * rewrite filter_cons, decide_True by done. cbn. f_equal. exact Hidx.
      * rewrite !filter_cons, !decide_True by done. cbn. f_equal. exact Hsame.
    + destruct (IH next) as (copies & fields' & -> & Hrel & Hmut & Hidx & Hsame).
      eexists _, _. split; [done|]. split_and!.
      * constructor; [|done].
        exists 0. unfold graphable_of. by rewrite decide_False.
      * constructor; [|done]. by left.
      * by rewrite filter_cons, decide_False.
      * by rewrite !filter_cons, !decide_False.
Qed.

(** Running the inner loop on its own copies changes nothing. *)
Lemma graphable_fields_again stacking fields : forall next copies fields' next',
  graphable_fields stacking fields next = (copies, fields', next') ->
  graphable_fields stacking copies next = (copies, copies, next').
Proof.
  induction fields as [|f fields IH]; intros next copies fields' next' Hrun.
  - cbn in Hrun. by simplify_eq.
  - cbn [graphable_fields] in Hrun.
    destruct (decide (field_type f = FieldNumber)) as [Hnum|Hnum].
    + destruct (graphable_fields stacking fields (S next)) as [[cs fs] n'] eqn:Hrest.
      simplify_eq. cbn [graphable_fields].
      rewrite decide_True by done. rewrite (IH _ _ _ _ Hrest).
      pose proof (graphable_copy_again stacking next f) as Hagain.
      cbn zeta in Hagain. rewrite Hagain. done.
    + destruct (graphable_fields stacking fields next) as [[cs fs] n'] eqn:Hrest.
      simplify_eq. cbn [graphable_fields].
      rewrite decide_False by done. by rewrite (IH _ _ _ _ Hrest).
Qed.

Lemma series_indices_app fields fields' :
  series_indices (fields ++ fields') = series_indices fields ++ series_indices fields'.
Proof. unfold series_indices. by rewrite filter_app, fmap_app. Qed.

(** The outer loop, frame by frame. *)
Lemma graphable_frames_spec stacking series : forall next,
  exists out mutated,
    graphable_frames stacking series next
    = (out, mutated,
       next + length (filter (fun f => field_type f = FieldNumber)
                        (series ≫= frame_fields))) /\
    Forall2 (fun frame copy =>
               frame_rest copy = frame_rest frame /\
               Forall2 (fun f c => exists n, graphable_of stacking n f c)
                 (frame_fields frame) (frame_fields copy)) series out /\
    Forall2 (fun frame frame' =>
               frame_rest frame' = frame_rest frame /\
               Forall2 (fun f f' => f' = f \/ exists n, f' = with_seriesIndex n f)
                 (frame_fields frame) (frame_fields frame')) series mutated /\
    series_indices (out ≫= frame_fields)
    = Some <$> seq next (length (filter (fun f => field_type f = FieldNumber)
                                   (series ≫= frame_fields))) /\
    series_indices (mutated ≫= frame_fields) = series_indices (out ≫= frame_fields).
Proof.
  induction series as [|frame series IH]; intros next.
  - exists [], []. cbn. rewrite Nat.add_0_r. by split_and!.
  - cbn [graphable_frames].
    destruct (graphable_fields_spec stacking (frame_fields frame) next)
      as (copies & fields' & -> & Hrel & Hmut & Hidx & Hsame).
    destruct (IH (next + length (filter (fun f => field_type f = FieldNumber)
                                   (frame_fields frame))))
      as (out & mutated & -> & Hrels & Hmuts & Hidxs & Hsames).
    exists ({| frame_fields := copies; frame_rest := frame_rest frame |} :: out),
      ({| frame_fields := fields'; frame_rest := frame_rest frame |} :: mutated).
    rewrite !bind_cons.
    rewrite filter_app, length_app. split; [f_equal; lia|]. split_and!.
    + by constructor.
    + by constructor.
    + cbn [frame_fields]. rewrite series_indices_app, Hidx, Hidxs.
      by rewrite seq_app, fmap_app.
    + cbn [frame_fields]. by rewrite !series_indices_app, Hsame, Hsames.
Qed.

(** Running the outer loop on its own output changes nothing. *)
Lemma graphable_frames_again stacking series : forall next out mutated next',
  graphable_frames stacking series next = (out, mutated, next') ->
  graphable_frames stacking out next = (out, out, next').
Proof.
  induction series as [|frame series IH]; intros next out mutated next' Hrun.
  - cbn in Hrun. by simplify_eq.
  - cbn [graphable_frames] in Hrun.
    destruct (graphable_fields stacking (frame_fields frame) next)
      as [[copies fields'] n1] eqn:Hfields.
    destruct (graphable_frames stacking series n1) as [[out' mutated'] n2] eqn:Hrest.
    simplify_eq. cbn [graphable_frames frame_fields frame_rest].
    by rewrite (graphable_fields_again _ _ _ _ _ _ Hfields), (IH _ _ _ _ Hrest).
Qed.

Lemma has_field_of_type_spec t frame :
  has_field_of_type t frame = true
  <-> exists f, f ∈ frame_fields frame /\ field_type f = t.
Proof.
  unfold has_field_of_type. rewrite existsb_exists. split.
  - intros (f & Hin & Hf). exists f. split; [by apply list_elem_of_In|].
    by apply bool_decide_eq_true in Hf.
  - intros (f & Hin & Hf). exists f. split; [by apply list_elem_of_In|].
    by apply bool_decide_eq_true.
Qed.

(** The copies have the types of the fields they were made from. *)
Lemma graphable_of_type stacking n f c :
  graphable_of stacking n f c -> field_type c = field_type f.
Proof. unfold graphable_of. case_decide; by intros ->. Qed.

Lemma has_field_of_type_copies stacking t frame copy :
  Forall2 (fun f c => exists n, graphable_of stacking n f c)
    (frame_fields frame) (frame_fields copy) ->
  has_field_of_type t copy = has_field_of_type t frame.
Proof.
  unfold has_field_of_type.
  generalize (frame_fields frame) (frame_fields copy). clear.
  induction 1 as [|f c fs cs (n & Hfc) _ IH]; [done|].
  cbn. by rewrite IH, (graphable_of_type _ _ _ _ Hfc).
Qed.

(** When the first frame has a string field and a number field the result
    is that of the loops. *)
Lemma prepareGraphableFrames_run firstFrame others stacking :
  has_field_of_type FieldString firstFrame = true ->
  has_field_of_type FieldNumber firstFrame = true ->
  prepareGraphableFrames (Some (firstFrame :: others)) stacking
  = ({| frames := Some (graphable_frames stacking (firstFrame :: others) 0).1.1;
        warn := None |},
     Some (graphable_frames stacking (firstFrame :: others) 0).1.2).
Proof.
  intros Hs Hn. unfold prepareGraphableFrames. rewrite Hs, Hn. cbn [negb].
  by destruct (graphable_frames stacking (firstFrame :: others) 0) as [[? ?] ?].
Qed.

(** Frames are returned only for such a series. *)
Lemma prepareGraphableFrames_frames series stacking out :
  frames (prepareGraphableFrames series stacking).1 = Some out ->
  exists firstFrame others,
    series = Some (firstFrame :: others) /\
    has_field_of_type FieldString firstFrame = true /\
    has_field_of_type FieldNumber firstFrame = true /\
    out = (graphable_frames stacking (firstFrame :: others) 0).1.1.
Proof.
  destruct series as [[|firstFrame others]|]; [done| |done].
  destruct (has_field_of_type FieldString firstFrame) eqn:Hs;
    [|by unfold prepareGraphableFrames; rewrite Hs].
  destruct (has_field_of_type FieldNumber firstFrame) eqn:Hn;
    [|by unfold prepareGraphableFrames; rewrite Hs, Hn].
  rewrite prepareGraphableFrames_run by done. cbn. intros [= <-].
  by exists firstFrame, others.
Qed.

(** X23. [prepareGraphableFrames] returns either frames or a warning,
    never both and never neither.  It returns frames exactly when the
    series has a first frame and that frame has both a string field and a
    number field; the other frames are not examined.  It warns
    ["No data in response"] for a missing or empty series, otherwise
    ["Bar charts requires a string field"] when the first frame has no
    string field (whether or not it has a number field), otherwise
    ["No numeric fields found"]; when it warns it leaves the input as it
    is. *)
Theorem prepareGraphableFrames_warnings
    (series : option (list DataFrame)) (stacking : StackingMode) :
  let r := prepareGraphableFrames series stacking in
  match series with
  | None | Some [] =>
      r = ({| frames := None; warn := Some "No data in response" |}, series)
  | Some (firstFrame :: _) =>
      match has_field_of_type FieldString firstFrame,
            has_field_of_type FieldNumber firstFrame with
      | false, _ =>
          r = ({| frames := None;
                  warn := Some "Bar charts requires a string field" |}, series)
      | true, false =>
          r = ({| frames := None; warn := Some "No numeric fields found" |}, series)
      | true, true =>
          warn r.1 = None /\
          exists out, frames r.1 = Some out /\ length out = length (default [] series)
      end
  end.
Proof.
  destruct series as [[|firstFrame others]|]; [done| |done]. cbn zeta.
  destruct (has_field_of_type FieldString firstFrame) eqn:Hs;
    [|by unfold prepareGraphableFrames; rewrite Hs].
  destruct (has_field_of_type FieldNumber firstFrame) eqn:Hn;
    [|by unfold prepareGraphableFrames; rewrite Hs, Hn].
  rewrite prepareGraphableFrames_run by done.
  destruct (graphable_frames_spec stacking (firstFrame :: others) 0)
    as (out & mutated & -> & Hrel & _).
  cbn [fst snd frames warn default]. split; [done|].
  exists out. split; [done|]. symmetry. by eapply Forall2_length.
Qed.

(** What the loops make of a series for which frames are returned. *)
Lemma prepareGraphableFrames_related series stacking out :
  frames (prepareGraphableFrames series stacking).1 = Some out ->
  Forall2 (fun frame copy =>
             frame_rest copy = frame_rest frame /\
             Forall2 (fun f c => exists n, graphable_of stacking n f c)
               (frame_fields frame) (frame_fields copy))
    (default [] series) out.
Proof.
  intros Hout.
  apply prepareGraphableFrames_frames in Hout
    as (firstFrame & others & -> & _ & _ & ->).
  destruct (graphable_frames_spec stacking (firstFrame :: others) 0)
    as (out & mutated & -> & Hrel & _).
  exact Hrel.
Qed.

Ltac field_by_field Hout :=
  apply prepareGraphableFrames_related in Hout;
  eapply Forall2_impl; [exact Hout|];
  intros frame copy [Hrest Hfields]; cbn beta;
  try (split; [exact Hrest|]);
  eapply Forall2_impl; [exact Hfields|];
  intros f c [n Hfc]; cbn beta; unfold graphable_of in Hfc.

(** X24. When frames are returned there is one per input frame, in order,
    each with the other properties of its input frame and one field per
    input field, in order; a field keeps its name, its type, the number of
    its values and its other properties, and a field that is not a number
    field is copied as it is. *)
Theorem prepareGraphableFrames_shape
    (series : option (list DataFrame)) (stacking : StackingMode)
    (out : list DataFrame) :
  frames (prepareGraphableFrames series stacking).1 = Some out ->
  Forall2 (fun frame copy =>
             frame_rest copy = frame_rest frame /\
             Forall2 (fun f c =>
                        field_name c = field_name f /\
                        field_type c = field_type f /\
                        length (field_values c) = length (field_values f) /\
                        field_rest c = field_rest f /\
                        (field_type f <> FieldNumber -> c = f))
               (frame_fields frame) (frame_fields copy))
    (default [] series) out.
Proof.
  intros Hout. field_by_field Hout.
  case_decide; subst c; cbn; rewrite ?length_fmap; by split_and!.
Qed.

Lemma prepareGraphableFrames_shape_witness :
  Forall2 (fun frame copy =>
             frame_rest copy = frame_rest frame /\
             Forall2 (fun f c =>
                        field_name c = field_name f /\
                        field_type c = field_type f /\
                        length (field_values c) = length (field_values f) /\
                        field_rest c = field_rest f /\
                        (field_type f <> FieldNumber -> c = f))
               (frame_fields frame) (frame_fields copy))
    (default [] (Some BarExamples.series)) BarExamples.out.
Proof.
  apply (prepareGraphableFrames_shape (Some BarExamples.series) StackingPercent).
  reflexivity.
Defined.

(** X25. In the frames returned, the values of a number field are those of
    the input field with every value that is neither a finite number nor
    [null] or [undefined] (a NaN, an infinity, a string, ...) replaced by
    [null], all others kept in place; so every value of a returned number
    field is a finite number, [null] or [undefined]. *)
Theorem prepareGraphableFrames_values
    (series : option (list DataFrame)) (stacking : StackingMode)
    (out : list DataFrame) :
  frames (prepareGraphableFrames series stacking).1 = Some out ->
  Forall2 (fun frame copy =>
             Forall2 (fun f c =>
                        field_type f = FieldNumber ->
                        field_values c
                        = (fun v => if Number_isFinite v || is_nullish v
                                    then v else VNull) <$> field_values f /\
                        Forall (fun v => Number_isFinite v = true \/
                                         is_nullish v = true) (field_values c))
               (frame_fields frame) (frame_fields copy))
    (default [] series) out.
Proof.
  intros Hout. field_by_field Hout. intros Hnum.
  rewrite decide_True in Hfc by done. subst c. cbn. split.
  - apply list_fmap_ext. intros ? v _. unfold graphable_value.
    by destruct (Number_isFinite v || is_nullish v).
  - apply Forall_fmap, Forall_true. intros v. apply graphable_value_graphable.
Qed.

Lemma prepareGraphableFrames_values_witness :
  Forall2 (fun frame copy =>
             Forall2 (fun f c =>
                        field_type f = FieldNumber ->
                        field_values c
                        = (fun v => if Number_isFinite v || is_nullish v
                                    then v else VNull) <$> field_values f /\
                        Forall (fun v => Number_isFinite v = true \/
                                         is_nullish v = true) (field_values c))
               (frame_fields frame) (frame_fields copy))
    (default [] (Some BarExamples.series)) BarExamples.out.
Proof.
  apply (prepareGraphableFrames_values (Some BarExamples.series) StackingPercent).
  reflexivity.
Defined.

(** X26. In the frames returned, every number field stacks in group "_"
    with the stacking mode given to the call, whatever stacking its input
    field had, and keeps the other properties of its configuration.  With
    percent stacking its unit is "percentunit" and its display processor
    the one obtained for the copy; with any other stacking it keeps the
    unit and the display processor of the input field. *)
Theorem prepareGraphableFrames_config
    (series : option (list DataFrame)) (stacking : StackingMode)
    (out : list DataFrame) :
  frames (prepareGraphableFrames series stacking).1 = Some out ->
  Forall2 (fun frame copy =>
             Forall2 (fun f c =>
                        field_type f = FieldNumber ->
                        (custom_stacking <$> config_custom (field_config c))
                        = Some (Some {| stacking_mode := stacking;
                                        stacking_group := "_" |}) /\
                        (custom_rest <$> config_custom (field_config c))
                        = Some (default [] (custom_rest <$> config_custom (field_config f))) /\
                        config_rest (field_config c) = config_rest (field_config f) /\
                        if decide (stacking = StackingPercent)
                        then config_unit (field_config c) = Some "percentunit" /\
                             field_display c = Some FromGetDisplayProcessor
                        else config_unit (field_config c) = config_unit (field_config f) /\
                             field_display c = field_display f)
               (frame_fields frame) (frame_fields copy))
    (default [] series) out.
Proof.
  intros Hout. field_by_field Hout. intros Hnum.
  rewrite decide_True in Hfc by done. subst c. cbn.
  split_and!; try done.
  - by destruct (config_custom (field_config f)).
  - by case_decide.
Qed.

Lemma prepareGraphableFrames_config_witness :
  Forall2 (fun frame copy =>
             Forall2 (fun f c =>
                        field_type f = FieldNumber ->
                        (custom_stacking <$> config_custom (field_config c))
                        = Some (Some {| stacking_mode := StackingPercent;
                                        stacking_group := "_" |}) /\
                        (custom_rest <$> config_custom (field_config c))
                        = Some (default [] (custom_rest <$> config_custom (field_config f))) /\
                        config_rest (field_config c) = config_rest (field_config f) /\
                        if decide (StackingPercent = StackingPercent)
                        then config_unit (field_config c) = Some "percentunit" /\
                             field_display c = Some FromGetDisplayProcessor
                        else config_unit (field_config c) = config_unit (field_config f) /\
                             field_display c = field_display f)
               (frame_fields frame) (frame_fields copy))
    (default [] (Some BarExamples.series)) BarExamples.out.
Proof.
  apply (prepareGraphableFrames_config (Some BarExamples.series) StackingPercent).
  reflexivity.
Defined.

(** X27. When frames are returned, the number fields of all frames, taken
    in frame order and field order, carry the series indices 0, 1, 2, ...
    without gap, one per number field of the input; and the call leaves the
    number fields of the input series with the same indices. *)
Theorem prepareGraphableFrames_series_indices
    (series : option (list DataFrame)) (stacking : StackingMode)
    (out : list DataFrame) :
  let r := prepareGraphableFrames series stacking in
  frames r.1 = Some out ->
  series_indices (out ≫= frame_fields)
  = Some <$> seq 0 (length (filter (fun f => field_type f = FieldNumber)
                              (default [] series ≫= frame_fields))) /\
  exists mutated,
    r.2 = Some mutated /\
    series_indices (mutated ≫= frame_fields) = series_indices (out ≫= frame_fields).
Proof.
  cbn zeta. intros Hout.
  destruct (prepareGraphableFrames_frames _ _ _ Hout)
    as (firstFrame & others & -> & Hs & Hn & ->).
  rewrite prepareGraphableFrames_run by done.
  destruct (graphable_frames_spec stacking (firstFrame :: others) 0)
    as (out & mutated & -> & _ & _ & Hidx & Hsame).
  cbn [fst snd default]. split; [exact Hidx|]. by exists mutated.
Qed.

Lemma prepareGraphableFrames_series_indices_witness :
  series_indices (BarExamples.out ≫= frame_fields)
  = Some <$> seq 0 (length (filter (fun f => field_type f = FieldNumber)
                              (default [] (Some BarExamples.series) ≫= frame_fields))) /\
  exists mutated,
    (prepareGraphableFrames (Some BarExamples.series) StackingPercent).2 = Some mutated /\
    series_indices (mutated ≫= frame_fields)
    = series_indices (BarExamples.out ≫= frame_fields).
Proof.
  apply (prepareGraphableFrames_series_indices (Some BarExamples.series)
           StackingPercent).
  reflexivity.
Defined.

(** X28. [prepareGraphableFrames] is idempotent: given the frames it
    returned, with the same stacking, it returns frames equal to them field
    for field and leaves them as they are. *)
Theorem prepareGraphableFrames_idempotent
    (series : option (list DataFrame)) (stacking : StackingMode)
    (out : list DataFrame) :
  frames (prepareGraphableFrames series stacking).1 = Some out ->
  prepareGraphableFrames (Some out) stacking
  = ({| frames := Some out; warn := None |}, Some out).
Proof.
  intros Hout.
  pose proof (prepareGraphableFrames_related _ _ _ Hout) as Hrel.
  destruct (prepareGraphableFrames_frames _ _ _ Hout)
    as (firstFrame & others & -> & Hs & Hn & ->).
  destruct (graphable_frames stacking (firstFrame :: others) 0)
    as [[out mutated] next] eqn:Hrun.
  cbn [fst snd default] in *.
  inversion Hrel as [|? firstCopy ? copies [_ Hfirst] _]; subst.
  rewrite prepareGraphableFrames_run.
  - by rewrite (graphable_frames_again _ _ _ _ _ _ Hrun).
  - by rewrite (has_field_of_type_copies _ _ _ _ Hfirst).
  - by rewrite (has_field_of_type_copies _ _ _ _ Hfirst).
Qed.

Lemma prepareGraphableFrames_idempotent_witness :
  prepareGraphableFrames (Some BarExamples.out) StackingPercent
  = ({| frames := Some BarExamples.out; warn := None |}, Some BarExamples.out).
Proof.
  apply (prepareGraphableFrames_idempotent (Some BarExamples.series)).
  reflexivity.
Defined.

(** X29. The frames [prepareGraphableFrames] returns are always accepted by
    [preparePlotFrame]: it does not throw on them, and the frame it builds
    has the first string field and at least one number field. *)
Theorem preparePlotFrame_after_prepareGraphableFrames
    (series : option (list DataFrame)) (stacking : StackingMode)
    (out : list DataFrame) :
  frames (prepareGraphableFrames series stacking).1 = Some out ->
  exists firstString number numbers,
    preparePlotFrame out = Returns (firstString :: number :: numbers) /\
    field_type firstString = FieldString /\
    Forall (fun f => field_type f = FieldNumber) (number :: numbers).
Proof.
  intros Hout.
  pose proof (prepareGraphableFrames_related _ _ _ Hout) as Hrel.
  destruct (prepareGraphableFrames_frames _ _ _ Hout)
    as (firstFrame & others & -> & Hs & Hn & _).
  cbn [default] in Hrel.
  inversion Hrel as [|? firstCopy ? copies [_ Hfirst] _]; subst.
  rewrite <- (has_field_of_type_copies _ FieldString _ _ Hfirst) in Hs.
  rewrite <- (has_field_of_type_copies _ FieldNumber _ _ Hfirst) in Hn.
  destruct (preparePlotFrame_with_string firstCopy copies Hs)
    as (firstString & _ & _ & -> & _ & _ & Htype).
  apply has_field_of_type_spec in Hn as (f & Hin & Hf).
  assert (Forall (fun f => field_type f = FieldNumber)
            (filter (fun f => field_type f = FieldNumber) (frame_fields firstCopy)))
    as Hnums.
  { apply Forall_forall. intros g Hg. by apply list_elem_of_filter in Hg as [? _]. }
  destruct (filter _ (frame_fields firstCopy)) as [|number numbers] eqn:Hfilter.
  - assert (f ∈ filter (fun f => field_type f = FieldNumber) (frame_fields firstCopy))
      as Hmem by by apply list_elem_of_filter.
    rewrite Hfilter in Hmem. by apply elem_of_nil in Hmem.
  - by exists firstString, number, numbers.
Qed.

Lemma preparePlotFrame_after_prepareGraphableFrames_witness :
  exists firstString number numbers,
    preparePlotFrame BarExamples.out = Returns (firstString :: number :: numbers) /\
    field_type firstString = FieldString /\
    Forall (fun f => field_type f = FieldNumber) (number :: numbers).
Proof.
  apply (preparePlotFrame_after_prepareGraphableFrames (Some BarExamples.series)
           StackingPercent).
  reflexivity.
Defined.

(** ** [getRotationAngle] *)

(** X30. [getRotationAngle] never returns NaN, whatever the custom
    rotation is (a custom rotation that is NaN or absent counts as 0); and
    it returns a nonzero angle exactly when the mode is slope or vertical,
    or the mode is custom with a custom rotation that is neither zero nor
    NaN, which it then returns as it is. *)
Theorem getRotationAngle_never_NaN (config : ValueRotationConfig) :
  getRotationAngle config <> NaN /\
  (falsy_number (getRotationAngle config) = false
   <-> rotation_mode config = RotationSlope \/
       rotation_mode config = RotationVertical \/
       rotation_mode config = RotationCustom /\
       exists x, customRotation config = Some x /\ falsy_number x = false /\
                 getRotationAngle config = x).
Proof.
  destruct config as [[] [x|]]; unfold getRotationAngle; cbn;
    try destruct (falsy_number x) eqn:Hx; (split; [try done|]);
    try (by destruct x);
    (split;
     [ intros Hno; try discriminate; eauto 10
     | intros [?|[?|[? (y & ? & ? & ?)]]]; try discriminate; simplify_eq; done ]).
Qed.
